(** * A shallow embedding of the serverless data pipeline

    The development follows the three Python modules of the function:
    [config.py], [utils.py] and [main.py].  Python values, strings, numbers
    and exceptions are modelled first; the functions of the pipeline are then
    written over them in the order of the source.  The properties of the
    specification are stated and proved after the definitions. *)

From Stdlib Require Import ZArith NArith List Bool Lia String Ascii DecimalString.
From Stdlib Require Import Floats.SpecFloat.
Import ListNotations.
Set Warnings "-register-all".
Local Open Scope Z_scope.

(** ** Python strings *)

Module PyStr.

(** A Python [str] is a sequence of Unicode code points. *)
Definition pystr := list N.

Definition str (s : string) : pystr :=
  List.map N_of_ascii (list_ascii_of_string s).

Fixpoint eqb (s t : pystr) : bool :=
  match s, t with
  | [], [] => true
  | c :: s', d :: t' => N.eqb c d && eqb s' t'
  | _, _ => false
  end.

(** [str.isspace] on one code point: the characters whose bidirectional type
    is WS, B or S, or whose category is Zs. *)
Definition isspace (c : N) : bool :=
  ((9 <=? c) && (c <=? 13) || (28 <=? c) && (c <=? 32)
   || (c =? 133) || (c =? 160) || (c =? 5760)
   || (8192 <=? c) && (c <=? 8202)
   || (c =? 8232) || (c =? 8233) || (c =? 8239) || (c =? 8287)
   || (c =? 12288))%N.

(** [s.lstrip()], [s.rstrip()] and [s.strip()] with no argument. *)
Fixpoint lstrip (s : pystr) : pystr :=
  match s with
  | [] => []
  | c :: t => if isspace c then lstrip t else s
  end.

Definition rstrip (s : pystr) : pystr := rev (lstrip (rev s)).

Definition strip (s : pystr) : pystr := rstrip (lstrip s).

(** [s.split()] with no argument: runs of white space separate the words and
    no empty word is produced.  [cur] holds the characters of the word being
    read, last one first. *)
Fixpoint split_from (cur : pystr) (s : pystr) : list pystr :=
  match s with
  | [] => match cur with [] => [] | _ => [rev cur] end
  | c :: t =>
      if isspace c
      then match cur with
           | [] => split_from [] t
           | _ => rev cur :: split_from [] t
           end
      else split_from (c :: cur) t
  end.

Definition split (s : pystr) : list pystr := split_from [] s.

(** The number of maximal runs of characters other than white space: a run
    starts at a character that is not white space and that comes first or
    follows white space. *)
Fixpoint word_starts (after_space : bool) (s : pystr) : nat :=
  match s with
  | [] => 0
  | c :: t =>
      (if negb (isspace c) && after_space then 1 else 0)%nat
      + word_starts (isspace c) t
  end.

Definition token_count (s : pystr) : nat := word_starts true s.

(** [len(s)] *)
Definition len (s : pystr) : Z := Z.of_nat (List.length s).

(** [sub in s] for two strings. *)
Fixpoint startswith (s sub : pystr) : bool :=
  match sub, s with
  | [], _ => true
  | d :: sub', c :: s' => N.eqb c d && startswith s' sub'
  | _ :: _, [] => false
  end.

Fixpoint contains (s sub : pystr) : bool :=
  startswith s sub ||
  match s with
  | [] => false
  | _ :: s' => contains s' sub
  end.

(** [str(n)] for an integer. *)
Definition of_int (z : Z) : pystr := str (NilZero.string_of_int (Z.to_int z)).

End PyStr.

Import PyStr.

(** ** Python values, exceptions and numbers *)

Module Py.

(** The values a decoded JSON document is made of.  A [dict] is kept as the
    list of its items; its keys are strings. *)
Inductive value : Type :=
| VNone
| VBool (b : bool)
| VInt (z : Z)
| VFloat (f : spec_float)
| VStr (s : pystr)
| VList (l : list value)
| VDict (d : list (pystr * value)).

Inductive pytype : Type :=
| NoneType | TBool | TInt | TFloat | TStr | TList | TDict.

(** [type(v)] *)
Definition type_of (v : value) : pytype :=
  match v with
  | VNone => NoneType
  | VBool _ => TBool
  | VInt _ => TInt
  | VFloat _ => TFloat
  | VStr _ => TStr
  | VList _ => TList
  | VDict _ => TDict
  end.

Definition type_name (t : pytype) : pystr :=
  match t with
  | NoneType => str "NoneType"
  | TBool => str "bool"
  | TInt => str "int"
  | TFloat => str "float"
  | TStr => str "str"
  | TList => str "list"
  | TDict => str "dict"
  end.

(** [isinstance(v, int)]: [bool] is a subclass of [int]. *)
Definition isinstance_int (v : value) : bool :=
  match v with
  | VInt _ | VBool _ => true
  | _ => false
  end.

(** [isinstance(v, str)] *)
Definition isinstance_str (v : value) : bool :=
  match v with
  | VStr _ => true
  | _ => false
  end.

(** *** Exceptions *)

(** The exception classes the pipeline meets, with their place in the class
    hierarchy (the texts of the built-in exceptions below are those of
    CPython 3.11).  [RequestError] is [requests.RequestException], [HTTPError],
    [ConnectError], [ReadTimeout] and [JSONDecodeError] are its subclasses in
    the [requests] package, [StoreError] stands for the errors of the
    document store client. *)
Inductive exn_class : Type :=
| BaseException | KeyboardInterrupt | SystemExit
| Exception
| TypeError | ValueError | AttributeError | KeyError
| OverflowError | ZeroDivisionError
| OSError | RequestError | HTTPError | ConnectError | ReadTimeout
| JSONDecodeError
| StoreError.

Definition base (c : exn_class) : option exn_class :=
  match c with
  | BaseException => None
  | KeyboardInterrupt | SystemExit | Exception => Some BaseException
  | TypeError | ValueError | AttributeError | KeyError
  | OverflowError | ZeroDivisionError | OSError | StoreError => Some Exception
  | RequestError => Some OSError
  | HTTPError | ConnectError | ReadTimeout | JSONDecodeError => Some RequestError
  end.

Definition class_eqb (c d : exn_class) : bool :=
  match c, d with
  | BaseException, BaseException | KeyboardInterrupt, KeyboardInterrupt
  | SystemExit, SystemExit | Exception, Exception | TypeError, TypeError
  | ValueError, ValueError | AttributeError, AttributeError
  | KeyError, KeyError | OverflowError, OverflowError
  | ZeroDivisionError, ZeroDivisionError | OSError, OSError
  | RequestError, RequestError | HTTPError, HTTPError
  | ConnectError, ConnectError | ReadTimeout, ReadTimeout
  | JSONDecodeError, JSONDecodeError | StoreError, StoreError => true
  | _, _ => false
  end.

(** [issubclass(c, d)], by walking up from [c]; the hierarchy above is four
    levels deep. *)
Fixpoint issubclass_upto (depth : nat) (c d : exn_class) : bool :=
  class_eqb c d ||
  match depth, base c with
  | S depth', Some b => issubclass_upto depth' b d
  | _, _ => false
  end.

Definition issubclass : exn_class -> exn_class -> bool := issubclass_upto 4.

(** An exception object: its class and the text [str(e)] gives. *)
Record exn : Type := mk_exn { exn_class_of : exn_class; exn_str : pystr }.

(** [except classes as e] catches [e] when it is an instance of one of the
    classes of the tuple. *)
Definition catches (classes : list exn_class) (e : exn) : bool :=
  existsb (issubclass (exn_class_of e)) classes.

(** The outcome of evaluating an expression or a call: a value, or a raised
    exception. *)
Inductive outcome (A : Type) : Type :=
| Return (a : A)
| Raise (e : exn).
Arguments Return {A} a.
Arguments Raise {A} e.

Definition obind {A B} (o : outcome A) (k : A -> outcome B) : outcome B :=
  match o with
  | Return a => k a
  | Raise e => Raise e
  end.

Definition returns {A} (o : outcome A) : bool :=
  match o with
  | Return _ => true
  | Raise _ => false
  end.

(** [raise x] where [x] holds an exception or [None]. *)
Definition raise_object {A} (x : option exn) : outcome A :=
  match x with
  | Some e => Raise e
  | None =>
      Raise (mk_exn TypeError (str "exceptions must derive from BaseException"))
  end.

(** *** Operations on values *)

Fixpoint dict_get (k : pystr) (d : list (pystr * value)) : option value :=
  match d with
  | [] => None
  | (k', v) :: d' => if PyStr.eqb k k' then Some v else dict_get k d'
  end.

Definition not_iterable (t : pytype) : exn :=
  mk_exn TypeError
    (str "argument of type '" ++ type_name t ++ str "' is not iterable").

Definition no_attribute (t : pytype) (attr : string) : exn :=
  mk_exn AttributeError
    (str "'" ++ type_name t ++ str "' object has no attribute '"
         ++ str attr ++ str "'").

Definition is_str_equal (k : pystr) (v : value) : bool :=
  match v with
  | VStr s => PyStr.eqb k s
  | _ => false
  end.

(** [k in data] for a string [k]: key membership in a dict, element
    membership in a list, substring test in a string. *)
Definition py_in (k : pystr) (data : value) : outcome bool :=
  match data with
  | VDict d => Return (match dict_get k d with Some _ => true | None => false end)
  | VList l => Return (existsb (is_str_equal k) l)
  | VStr s => Return (PyStr.contains s k)
  | _ => Raise (not_iterable (type_of data))
  end.

(** [data.get(k)] *)
Definition py_get (data : value) (k : pystr) : outcome value :=
  match data with
  | VDict d => Return (match dict_get k d with Some v => v | None => VNone end)
  | _ => Raise (no_attribute (type_of data) "get")
  end.

(** [data[k]] for a string [k]. *)
Definition py_getitem (data : value) (k : pystr) : outcome value :=
  match data with
  | VDict d =>
      match dict_get k d with
      | Some v => Return v
      | None => Raise (mk_exn KeyError (str "'" ++ k ++ str "'"))
      end
  | VList _ =>
      Raise (mk_exn TypeError
               (str "list indices must be integers or slices, not str"))
  | VStr _ =>
      Raise (mk_exn TypeError (str "string indices must be integers"))
  | _ =>
      Raise (mk_exn TypeError
               (str "'" ++ type_name (type_of data)
                    ++ str "' object is not subscriptable"))
  end.

(** [v.strip()] *)
Definition py_strip (v : value) : outcome pystr :=
  match v with
  | VStr s => Return (strip s)
  | _ => Raise (no_attribute (type_of v) "strip")
  end.

(** [len(v)] *)
Definition py_len (v : value) : outcome Z :=
  match v with
  | VList l => Return (Z.of_nat (List.length l))
  | VDict d => Return (Z.of_nat (List.length d))
  | VStr s => Return (PyStr.len s)
  | _ =>
      Raise (mk_exn TypeError
               (str "object of type '" ++ type_name (type_of v)
                    ++ str "' has no len()"))
  end.

(** [list(v[:n])] for [0 <= n]: the first [n] items of a list, the first [n]
    characters of a string. *)
Definition py_take (v : value) (n : Z) : outcome (list value) :=
  match v with
  | VList l => Return (firstn (Z.to_nat n) l)
  | VStr s => Return (List.map (fun c => VStr [c]) (firstn (Z.to_nat n) s))
  | VDict _ => Raise (mk_exn TypeError (str "unhashable type: 'slice'"))
  | _ =>
      Raise (mk_exn TypeError
               (str "'" ++ type_name (type_of v)
                    ++ str "' object is not subscriptable"))
  end.

(** *** Numbers *)

(** A Python number is an [int] of any size or a binary64 [float]. *)
Inductive pynum : Type :=
| PInt (z : Z)
| PFloat (f : spec_float).

Definition f64_mul := SFmul 53 1024.
Definition f64_div := SFdiv 53 1024.

(** [float(z)]: the nearest binary64 number, ties to even; an integer beyond
    the range of [float] raises [OverflowError]. *)
Definition float_of_int (z : Z) : outcome spec_float :=
  match binary_normalize 53 1024 z 0 false with
  | S754_infinity _ =>
      Raise (mk_exn OverflowError (str "int too large to convert to float"))
  | f => Return f
  end.

(** [a * b] *)
Definition py_mul (a b : pynum) : outcome pynum :=
  match a, b with
  | PInt x, PInt y => Return (PInt (x * y))
  | PInt x, PFloat g => obind (float_of_int x) (fun f => Return (PFloat (f64_mul f g)))
  | PFloat f, PInt y => obind (float_of_int y) (fun g => Return (PFloat (f64_mul f g)))
  | PFloat f, PFloat g => Return (PFloat (f64_mul f g))
  end.

Definition exact_float (z : Z) : spec_float :=
  match z with
  | Z0 => S754_zero false
  | Zpos p => S754_finite false p 0
  | Zneg p => S754_finite true p 0
  end.

(** [a / b] for two integers: the binary64 number nearest to the exact
    quotient. *)
Definition int_truediv (a b : Z) : outcome spec_float :=
  if b =? 0 then Raise (mk_exn ZeroDivisionError (str "division by zero"))
  else match f64_div (exact_float a) (exact_float b) with
       | S754_infinity _ =>
           Raise (mk_exn OverflowError
                    (str "integer division result too large for a float"))
       | f => Return f
       end.

(** [time.sleep(secs)] checks its argument before it blocks: a negative
    length, or a NaN, raises [ValueError].  (A length beyond the range of the
    platform timer, some 292 years in either direction, raises
    [OverflowError] instead; such lengths are outside this model.) *)
Definition time_sleep (secs : pynum) : outcome unit :=
  match secs with
  | PInt z =>
      if z <? 0
      then Raise (mk_exn ValueError (str "sleep length must be non-negative"))
      else Return tt
  | PFloat S754_nan =>
      Raise (mk_exn ValueError (str "Invalid value NaN (not a number)"))
  | PFloat f =>
      if SFltb f (S754_zero false)
      then Raise (mk_exn ValueError (str "sleep length must be non-negative"))
      else Return tt
  end.

End Py.

Import Py.

(** ** config.py *)

Module Config.

(** The class attributes read from the environment when the module is loaded.
    The other attributes are constants of the source. *)
Record t : Type := {
  PROJECT_ID : pystr;
  FIRESTORE_DATABASE : pystr;
  FIRESTORE_COLLECTION : pystr;
  EXTERNAL_API_URL : pystr;
  API_RETRY_MAX_ATTEMPTS : Z;
  API_RETRY_DELAY : Z;
  LOG_LEVEL : pystr
}.

Definition API_ENDPOINT : pystr := str "/posts".
Definition API_RETRY_BACKOFF : pynum :=
  PFloat (S754_finite false 4503599627370496 (-51)).   (* 2.0 *)
Definition API_TIMEOUT : Z := 30.
Definition MAX_ITEMS_TO_PROCESS : Z := 10.
Definition BATCH_SIZE : Z := 5.

(** The configuration of an environment that sets none of the variables. *)
Definition defaults : t := {|
  PROJECT_ID := str "";
  FIRESTORE_DATABASE := str "(default)";
  FIRESTORE_COLLECTION := str "api_data";
  EXTERNAL_API_URL := str "https://jsonplaceholder.typicode.com";
  API_RETRY_MAX_ATTEMPTS := 3;
  API_RETRY_DELAY := 2;
  LOG_LEVEL := str "INFO"
|}.

(** [Config.validate()]: the only required field is [PROJECT_ID]; an empty
    value is falsy. *)
Definition validate (cfg : t) : outcome bool :=
  match PROJECT_ID cfg with
  | [] =>
      Raise (mk_exn ValueError
               (str "Missing required configuration: " ++ str "PROJECT_ID"))
  | _ => Return true
  end.

End Config.

(** ** The collaborators of the pipeline and the state of a run *)

Module Env.

(** An instant, in microseconds. *)
Definition timestamp := Z.

Inductive sentinel : Type := SERVER_TIMESTAMP.

(** The dictionary [transform_post_data] builds. *)
Module Doc.
Record t : Type := {
  user_id : value;
  post_id : value;
  title : pystr;
  body : pystr;
  title_length : Z;
  body_length : Z;
  word_count : Z;
  fetched_at : sentinel;
  processed_at : timestamp;
  source : pystr;
  status : pystr
}.
End Doc.

(** What [requests.get] yields: a response, of which the pipeline reads the
    status code, the [Retry-After] header and the decoded JSON body ([None]
    when the body is not JSON), or one of the package's own errors. *)
Inductive transport_failure : Type := connection_failed | timed_out.

Inductive http_reply : Type :=
| Response (status_code : Z) (retry_after : option pystr) (json : option value)
| RequestFailed (why : transport_failure) (text : pystr).

(** A write of a batch: the collection name, the document name and the
    document. *)
Definition write : Type := pystr * pystr * Doc.t.

(** The behaviour of the outside world during one run: the clock, the HTTP
    API, the [time.sleep] primitive and the document store.  [http n] and
    [commit_failure n] answer the [n]-th request and the [n]-th commit,
    counted from 0. *)
Record collaborators : Type := {
  clock : nat -> timestamp;
  http : nat -> http_reply;
  sleep : pynum -> outcome unit;
  commit_failure : nat -> option exn;
  client_failure : option exn;
  health_set_failure : option exn;
  health_get : outcome bool;
  repr_other : value -> pystr
}.

(** The state a run changes: how often the clock was read, how many requests
    were sent, and the batches handed to the store with whether each was
    applied. *)
Record world : Type := {
  clock_reads : nat;
  requests_sent : nat;
  commits : list (list write * bool)
}.

Definition initial : world :=
  {| clock_reads := 0; requests_sent := 0; commits := [] |}.

(** Computations that read and change the world and may raise. *)
Definition M (A : Type) : Type := world -> outcome A * world.

Definition ret {A} (a : A) : M A := fun w => (Return a, w).

Definition bind {A B} (c : M A) (k : A -> M B) : M B :=
  fun w =>
    match c w with
    | (Return a, w') => k a w'
    | (Raise e, w') => (Raise e, w')
    end.

Definition lift {A} (o : outcome A) : M A := fun w => (o, w).

(** [try: c except classes as e: handler e] *)
Definition try_except {A} (c : M A) (classes : list exn_class)
    (handler : exn -> M A) : M A :=
  fun w =>
    match c w with
    | (Return a, w') => (Return a, w')
    | (Raise e, w') =>
        if catches classes e then handler e w' else (Raise e, w')
    end.

Declare Scope py_scope.
Delimit Scope py_scope with py.
Notation "x <- c ;; k" := (bind c (fun x => k))
  (at level 61, c at next level, right associativity) : py_scope.
Notation "c ;;; k" := (bind c (fun _ => k))
  (at level 61, right associativity) : py_scope.

Section Primitives.
Variable E : collaborators.

(** [datetime.utcnow()] *)
Definition utcnow : M timestamp := fun w =>
  (Return (clock E (clock_reads w)),
   {| clock_reads := S (clock_reads w);
      requests_sent := requests_sent w;
      commits := commits w |}).

(** [requests.get(url, ...)] *)
Definition requests_get : world -> http_reply * world := fun w =>
  (http E (requests_sent w),
   {| clock_reads := clock_reads w;
      requests_sent := S (requests_sent w);
      commits := commits w |}).

(** [batch.commit()]: the batch is applied as a whole or not at all. *)
Definition commit (batch : list write) : M unit := fun w =>
  let failure := commit_failure E (List.length (commits w)) in
  ((match failure with Some e => Raise e | None => Return tt end),
   {| clock_reads := clock_reads w;
      requests_sent := requests_sent w;
      commits := commits w ++
                 [(batch, match failure with Some _ => false | None => true end)] |}).

(** The world after one more reading of the clock. *)
Definition tick (w : world) : world :=
  {| clock_reads := S (clock_reads w);
     requests_sent := requests_sent w;
     commits := commits w |}.

(** [str(v)] as an f-string inserts it. *)
Definition py_str (v : value) : pystr :=
  match v with
  | VNone => str "None"
  | VBool true => str "True"
  | VBool false => str "False"
  | VInt z => PyStr.of_int z
  | VStr s => s
  | _ => repr_other E v
  end.
End Primitives.

End Env.

Import Env.
Local Open Scope py_scope.

(** ** utils.py *)

Module Utils.

(** [range(start, stop)] *)
Definition range (start stop : Z) : list Z :=
  List.map (fun k => start + Z.of_nat k) (seq 0 (Z.to_nat (stop - start))).

(** [range(start, stop, step)] *)
Definition range_step (start stop step : Z) : outcome (list Z) :=
  if step =? 0
  then Raise (mk_exn ValueError (str "range() arg 3 must not be zero"))
  else
    let count :=
      if 0 <? step
      then (stop - start + step - 1) / step
      else (start - stop - step - 1) / (- step) in
    Return (List.map (fun k => start + Z.of_nat k * step)
                     (seq 0 (Z.to_nat count))).

(** [l[i:j]] for [0 <= i]. *)
Definition slice {A} (l : list A) (i j : Z) : list A :=
  firstn (Z.to_nat (j - i)) (skipn (Z.to_nat i) l).

(** *** retry_with_backoff *)

(** What an observer of the executor sees: the calls of the wrapped function,
    numbered as the loop numbers them, and the completed waits. *)
Inductive event : Type :=
| Attempt (attempt : Z)
| Wait (delay : pynum).

Definition is_attempt (ev : event) : bool :=
  match ev with Attempt _ => true | Wait _ => false end.

Definition attempts_of (tr : list event) : nat :=
  List.length (filter is_attempt tr).

Fixpoint waits_of (tr : list event) : list pynum :=
  match tr with
  | [] => []
  | Wait d :: tr' => d :: waits_of tr'
  | Attempt _ :: tr' => waits_of tr'
  end.

Section RetryWithBackoff.
Context {A S : Type}.
(** [time.sleep] *)
Variable sleep : pynum -> outcome unit.
(** The wrapped function, acting on a state of its own. *)
Variable func : S -> outcome A * S.
Variable max_attempts : Z.
Variable backoff_factor : pynum.
Variable exceptions : list exn_class.

Definition after {R} (evs : list event) (r : R * S * list event)
    : R * S * list event :=
  let '(x, s, tr) := r in (x, s, evs ++ tr).

(** The [for attempt in ...] loop and the [raise last_exception] after it;
    [delay] and [last_exception] are the local variables of the source. *)
Fixpoint retry_loop (attempts : list Z) (delay : pynum)
    (last_exception : option exn) (s : S) : outcome A * S * list event :=
  match attempts with
  | [] => (raise_object last_exception, s, [])
  | attempt :: rest =>
      match func s with
      | (Return result, s') => (Return result, s', [Attempt attempt])
      | (Raise e, s') =>
          if catches exceptions e then
            if attempt <? max_attempts then
              match sleep delay with
              | Raise e' => (Raise e', s', [Attempt attempt])
              | Return _ =>
                  match py_mul delay backoff_factor with
                  | Raise e' => (Raise e', s', [Attempt attempt; Wait delay])
                  | Return delay' =>
                      after [Attempt attempt; Wait delay]
                            (retry_loop rest delay' (Some e) s')
                  end
              end
            else after [Attempt attempt] (retry_loop rest delay (Some e) s')
          else (Raise e, s', [Attempt attempt])
      end
  end.

Definition retry_with_backoff (initial_delay : pynum) (s : S)
    : outcome A * S * list event :=
  retry_loop (range 1 (max_attempts + 1)) initial_delay None s.
End RetryWithBackoff.

(** *** validate_post_data *)

Definition required_fields : list pystr :=
  [str "userId"; str "id"; str "title"; str "body"].

(** The warning the validator logs when it rejects a record. *)
Inductive warning : Type :=
| MissingRequiredField (field : pystr)
| InvalidUserIdType (t : pytype)
| InvalidIdType (t : pytype)
| InvalidOrEmptyTitle
| InvalidOrEmptyBody.

(** [for field in required_fields: if field not in data: ... return False] *)
Fixpoint check_required (fields : list pystr) (data : value)
    : outcome (option warning) :=
  match fields with
  | [] => Return None
  | field :: rest =>
      obind (py_in field data) (fun present =>
        if negb present then Return (Some (MissingRequiredField field))
        else check_required rest data)
  end.

(** [not isinstance(data.get(k), str) or not data.get(k).strip()] *)
Definition invalid_or_empty (data : value) (k : pystr) : outcome bool :=
  obind (py_get data k) (fun v =>
    if negb (isinstance_str v) then Return true
    else obind (py_get data k) (fun v' =>
           obind (py_strip v') (fun s =>
             Return (match s with [] => true | _ => false end)))).

(** The body of [validate_post_data]: the returned boolean, with the logged
    warning when it is [False]. *)
Definition validate_post_data_log (data : value) : outcome (bool * option warning) :=
  obind (check_required required_fields data) (fun missing =>
    match missing with
    | Some w => Return (false, Some w)
    | None =>
        obind (py_get data (str "userId")) (fun u =>
          if negb (isinstance_int u)
          then Return (false, Some (InvalidUserIdType (type_of u)))
          else
            obind (py_get data (str "id")) (fun i =>
              if negb (isinstance_int i)
              then Return (false, Some (InvalidIdType (type_of i)))
              else
                obind (invalid_or_empty data (str "title")) (fun bad_title =>
                  if bad_title then Return (false, Some InvalidOrEmptyTitle)
                  else
                    obind (invalid_or_empty data (str "body")) (fun bad_body =>
                      if bad_body then Return (false, Some InvalidOrEmptyBody)
                      else Return (true, None)))))
    end).

Definition validate_post_data (data : value) : outcome bool :=
  obind (validate_post_data_log data) (fun r => Return (fst r)).

(** *** transform_post_data *)

Section Transform.
Variable E : collaborators.

(** The items of the dictionary are evaluated from top to bottom; the clock
    is read after the fields of the record. *)
Definition transform_post_data (data : value) : M Doc.t :=
  user_id <- lift (py_getitem data (str "userId")) ;;
  post_id <- lift (py_getitem data (str "id")) ;;
  title <- lift (obind (py_getitem data (str "title")) py_strip) ;;
  body <- lift (obind (py_getitem data (str "body")) py_strip) ;;
  title' <- lift (obind (py_getitem data (str "title")) py_strip) ;;
  body' <- lift (obind (py_getitem data (str "body")) py_strip) ;;
  body'' <- lift (obind (py_getitem data (str "body")) py_strip) ;;
  now <- utcnow E ;;
  ret {| Doc.user_id := user_id;
         Doc.post_id := post_id;
         Doc.title := title;
         Doc.body := body;
         Doc.title_length := PyStr.len title';
         Doc.body_length := PyStr.len body';
         Doc.word_count := Z.of_nat (List.length (split body''));
         Doc.fetched_at := SERVER_TIMESTAMP;
         Doc.processed_at := now;
         Doc.source := str "jsonplaceholder";
         Doc.status := str "processed" |}.
End Transform.

(** *** check_firestore_health and handle_rate_limit *)

Section Store.
Variable E : collaborators.

(** The health document is written, then read back; any [Exception] on the
    way makes the check answer [False]. *)
Definition check_firestore_health : M bool :=
  try_except
    (lift (match health_set_failure E with
           | Some e => Raise e
           | None => obind (health_get E) (fun doc_exists =>
                       if doc_exists then Return true else Return false)
           end))
    [Exception]
    (fun _ => ret false).

(** [response.raise_for_status()]: an [HTTPError] for the 4xx and 5xx codes
    (the reason phrase and the URL that follow in its text are left out). *)
Definition raise_for_status (status_code : Z) : outcome unit :=
  if (400 <=? status_code) && (status_code <? 500)
  then Raise (mk_exn HTTPError (PyStr.of_int status_code ++ str " Client Error"))
  else if (500 <=? status_code) && (status_code <? 600)
  then Raise (mk_exn HTTPError (PyStr.of_int status_code ++ str " Server Error"))
  else Return tt.

Definition handle_rate_limit (status_code : Z) (retry_after_header : option pystr)
    : outcome unit :=
  if status_code =? 429 then
    let retry_after :=
      match retry_after_header with Some v => v | None => str "60" end in
    Raise (mk_exn Exception
             (str "Rate limited. Retry after " ++ retry_after ++ str " seconds"))
  else raise_for_status status_code.

(** *** batch_write_to_firestore *)

(** The writes put in one batch: each item under the name [post_<post_id>]. *)
Definition batch_of (collection_name : pystr) (batch_items : list Doc.t)
    : list write :=
  List.map (fun item =>
              (collection_name, str "post_" ++ py_str E (Doc.post_id item), item))
           batch_items.

(** The [for i in range(0, len(items), batch_size)] loop.  The result holds
    the local variable [total_written] when the loop is left, and the
    exception that left it, if one did. *)
Fixpoint write_batches (collection_name : pystr) (items : list Doc.t)
    (batch_size : Z) (starts : list Z) (total_written : Z) (w : world)
    : (Z * option exn) * world :=
  match starts with
  | [] => ((total_written, None), w)
  | i :: rest =>
      let batch_items := slice items i (i + batch_size) in
      match commit E (batch_of collection_name batch_items) w with
      | (Return _, w') =>
          write_batches collection_name items batch_size rest
            (total_written + Z.of_nat (List.length batch_items)) w'
      | (Raise e, w') => ((total_written, Some e), w')
      end
  end.

Definition batch_write_locals (collection_name : pystr) (items : list Doc.t)
    (batch_size : Z) (w : world) : outcome (Z * option exn) * world :=
  match range_step 0 (Z.of_nat (List.length items)) batch_size with
  | Raise e => (Raise e, w)
  | Return starts =>
      let '(locals, w') :=
        write_batches collection_name items batch_size starts 0 w in
      (Return locals, w')
  end.

Definition batch_write_to_firestore (collection_name : pystr)
    (items : list Doc.t) (batch_size : Z) : M Z :=
  fun w =>
    match batch_write_locals collection_name items batch_size w with
    | (Raise e, w') => (Raise e, w')
    | (Return (total_written, None), w') => (Return total_written, w')
    | (Return (_, Some e), w') => (Raise e, w')
    end.
End Store.

(** *** get_execution_summary *)

Module Summary.
Record t : Type := {
  execution_time : Z;
  start_time : timestamp;
  end_time : timestamp;
  items_fetched : Z;
  items_processed : Z;
  items_stored : Z;
  success_rate : pynum;
  errors_count : Z;
  errors : list pystr;
  status : pystr
}.
End Summary.

(** [(total_stored / total_fetched * 100) if total_fetched > 0 else 0] *)
Definition success_rate_of (total_stored total_fetched : Z) : outcome pynum :=
  if 0 <? total_fetched
  then obind (int_truediv total_stored total_fetched) (fun q =>
         py_mul (PFloat q) (PInt 100))
  else Return (PInt 0).

(** ['success' if total_stored > 0 and len(errors) == 0
     else 'partial' if total_stored > 0 else 'failed'] *)
Definition status_of (total_stored : Z) (errors : list pystr) : pystr :=
  if (0 <? total_stored) && (Z.of_nat (List.length errors) =? 0)
  then str "success"
  else if 0 <? total_stored then str "partial" else str "failed".

Section ExecutionSummary.
Variable E : collaborators.

(** The duration is kept in microseconds ([total_seconds()] is that number
    over 10^6) and the two instants as they are ([isoformat()] prints
    them). *)
Definition get_execution_summary (total_fetched total_processed total_stored : Z)
    (errors : list pystr) (start_time : timestamp) : M Summary.t :=
  end_time <- utcnow E ;;
  let duration := end_time - start_time in
  success_rate <- lift (success_rate_of total_stored total_fetched) ;;
  ret {| Summary.execution_time := duration;
         Summary.start_time := start_time;
         Summary.end_time := end_time;
         Summary.items_fetched := total_fetched;
         Summary.items_processed := total_processed;
         Summary.items_stored := total_stored;
         Summary.success_rate := success_rate;
         Summary.errors_count := Z.of_nat (List.length errors);
         Summary.errors := firstn 10 errors;
         Summary.status := status_of total_stored errors |}.
End ExecutionSummary.

End Utils.

(** ** main.py *)

Module Main.

Import Utils.

(** The dictionary of a failed run. *)
Module Failure.
Record t : Type := {
  status : pystr;
  error : pystr;
  execution_time : Z;
  timestamp : Env.timestamp
}.
End Failure.

Inductive payload : Type :=
| Completed (summary : Summary.t)
| Failed (summary : Failure.t).

Section Pipeline.
Variable cfg : Config.t.
Variable E : collaborators.

Definition transport_exn (why : transport_failure) (text : pystr) : exn :=
  match why with
  | connection_failed => mk_exn ConnectError text
  | timed_out => mk_exn ReadTimeout text
  end.

(** The inner function [make_request] of [fetch_data_from_api]. *)
Definition make_request : M value := fun w =>
  let '(reply, w') := requests_get E w in
  match reply with
  | RequestFailed why text => (Raise (transport_exn why text), w')
  | Response status_code retry_after json =>
      (obind (handle_rate_limit status_code retry_after) (fun _ =>
         match json with
         | Some data => Return data
         | None => Raise (mk_exn JSONDecodeError (str "Expecting value"))
         end), w')
  end.

Definition fetch_exceptions : list exn_class := [RequestError; Exception].

(** [fetch_data_from_api], with the events of its retry loop.  The length
    of the data is taken for the log line that follows the fetch. *)
Definition fetch_data_from_api_events (w : world)
    : outcome value * world * list event :=
  let '(r, w', tr) :=
    retry_with_backoff (sleep E) make_request
      (Config.API_RETRY_MAX_ATTEMPTS cfg) Config.API_RETRY_BACKOFF
      fetch_exceptions (PInt (Config.API_RETRY_DELAY cfg)) w in
  (obind r (fun data => obind (py_len data) (fun _ => Return data)), w', tr).

Definition fetch_data_from_api : M value := fun w =>
  let '(r, w', _) := fetch_data_from_api_events w in (r, w').

(** One round of the loop of [process_data] on the item numbered [idx];
    the two lists are the local variables [processed_items] and [errors]. *)
Definition process_item (idx : Z) (item : value)
    (locals : list Doc.t * list pystr) : M (list Doc.t * list pystr) :=
  let '(processed_items, errors) := locals in
  try_except
    (valid <- lift (validate_post_data item) ;;
     if negb valid
     then ret (processed_items,
               errors ++ [str "Item " ++ PyStr.of_int idx
                              ++ str ": Validation failed"])
     else
       transformed <- transform_post_data E item ;;
       ret (processed_items ++ [transformed], errors))
    [Exception]
    (fun e =>
       ret (processed_items,
            errors ++ [str "Item " ++ PyStr.of_int idx
                           ++ str ": Processing error - " ++ exn_str e])).

(** [for idx, item in enumerate(items_to_process, 1)] *)
Fixpoint process_items (items : list value) (idx : Z)
    (locals : list Doc.t * list pystr) : M (list Doc.t * list pystr) :=
  match items with
  | [] => ret locals
  | item :: rest =>
      locals' <- process_item idx item locals ;;
      process_items rest (idx + 1) locals'
  end.

(** [process_data] up to its [return]: the lists [processed_items] and
    [errors] as they stand there. *)
Definition process_data_locals (raw_data : value)
    : M (list Doc.t * list pystr) :=
  items_to_process <- lift (py_take raw_data Config.MAX_ITEMS_TO_PROCESS) ;;
  process_items items_to_process 1 ([], []).

(** [process_data] returns [processed_items] alone. *)
Definition process_data (raw_data : value) : M (list Doc.t) :=
  locals <- process_data_locals raw_data ;;
  ret (fst locals).

Definition store_data_in_firestore (items : list Doc.t) : M Z :=
  match items with
  | [] => ret 0
  | _ =>
      try_except
        (batch_write_to_firestore E (Config.FIRESTORE_COLLECTION cfg) items
           Config.BATCH_SIZE)
        [Exception]
        (fun e => lift (Raise e))
  end.

Definition initialize_firestore : M unit :=
  try_except
    (lift (match client_failure E with
           | Some e => Raise e
           | None => Return tt
           end) ;;;
     healthy <- check_firestore_health E ;;
     if negb healthy
     then lift (Raise (mk_exn Exception (str "Firestore health check failed")))
     else ret tt)
    [Exception]
    (fun e => lift (Raise e)).

(** [main(request)]: the payload and the HTTP status code. *)
Definition main : M (payload * Z) :=
  start_time <- utcnow E ;;
  let errors : list pystr := [] in
  try_except
    (lift (Config.validate cfg) ;;;
     initialize_firestore ;;;
     raw_data <- fetch_data_from_api ;;
     processed_data <- process_data raw_data ;;
     stored_count <- store_data_in_firestore processed_data ;;
     total_fetched <- lift (py_len raw_data) ;;
     summary <- get_execution_summary E total_fetched
                  (Z.of_nat (List.length processed_data)) stored_count
                  errors start_time ;;
     ret (Completed summary, 200))
    [Exception]
    (fun e =>
       elapsed <- utcnow E ;;
       stamp <- utcnow E ;;
       ret (Failed {| Failure.status := str "failed";
                      Failure.error := exn_str e;
                      Failure.execution_time := elapsed - start_time;
                      Failure.timestamp := stamp |}, 500)).
End Pipeline.

End Main.

(** ** The vocabulary of the specification *)

Module Spec.

Import Utils.

(** *** Record Validator *)

Definition has_key (k : pystr) (d : list (pystr * value)) : bool :=
  match dict_get k d with Some _ => true | None => false end.

Definition lookup (k : string) (d : list (pystr * value)) : value :=
  match dict_get (str k) d with Some v => v | None => VNone end.

(** An integer as the specification words it: neither a boolean nor a numeric
    string. *)
Definition strict_integer (v : value) : bool :=
  match v with
  | VInt _ => true
  | _ => false
  end.

(** A string that is not empty once trimmed. *)
Definition nonblank_text (v : value) : bool :=
  match v with
  | VStr s => match strip s with [] => false | _ => true end
  | _ => false
  end.

(** The rules of the validator in the order of the specification, each with
    the reason reported when it fails.  [is_integer] is the test applied to
    [userId] and [id]. *)
Definition rules (is_integer : value -> bool) (d : list (pystr * value))
    : list (bool * warning) :=
  [ (has_key (str "userId") d, MissingRequiredField (str "userId"));
    (has_key (str "id") d, MissingRequiredField (str "id"));
    (has_key (str "title") d, MissingRequiredField (str "title"));
    (has_key (str "body") d, MissingRequiredField (str "body"));
    (is_integer (lookup "userId" d), InvalidUserIdType (type_of (lookup "userId" d)));
    (is_integer (lookup "id" d), InvalidIdType (type_of (lookup "id" d)));
    (nonblank_text (lookup "title" d), InvalidOrEmptyTitle);
    (nonblank_text (lookup "body" d), InvalidOrEmptyBody) ].

(** Evaluation in order, stopping at the first rule that fails. *)
Definition verdict (rs : list (bool * warning)) : bool * option warning :=
  match find (fun r => negb (fst r)) rs with
  | Some (_, reason) => (false, Some reason)
  | None => (true, None)
  end.

(** *** Backoff Executor *)

(** A configuration error is a [ValueError], the class of the exception
    [Config.validate] raises for a setting that is missing. *)
Definition configuration_error (e : exn) : Prop :=
  issubclass (exn_class_of e) ValueError = true.

(** The delay in force after [k] completed waits, when the multiplications
    that lead to it succeed. *)
Fixpoint delay_after (k : nat) (delay backoff_factor : pynum) : outcome pynum :=
  match k with
  | O => Return delay
  | S k' => obind (py_mul delay backoff_factor)
                  (fun delay' => delay_after k' delay' backoff_factor)
  end.

(** *** Batch Writer *)

(** The consecutive chunks of at most [size] elements of a list; [fuel]
    bounds their number. *)
Fixpoint chunks_upto {A} (fuel size : nat) (l : list A) : list (list A) :=
  match fuel with
  | O => []
  | S fuel' =>
      match l with
      | [] => []
      | _ => firstn size l :: chunks_upto fuel' size (skipn size l)
      end
  end.

Definition chunks {A} (size : nat) (l : list A) : list (list A) :=
  chunks_upto (List.length l) size l.

(** The world whose store log has grown by [entries]. *)
Definition logged (w : world) (entries : list (list write * bool)) : world :=
  {| clock_reads := clock_reads w;
     requests_sent := requests_sent w;
     commits := commits w ++ entries |}.

(** *** Pipeline Orchestrator *)

(** The records the validator accepts. *)
Definition accepted (item : value) : bool :=
  match validate_post_data item with
  | Return true => true
  | _ => false
  end.

Definition rejected (item : value) : bool := negb (accepted item).

(** [doc] is the transform of [item], whatever the clock shows. *)
Definition transform_of (E : collaborators) (item : value) (doc : Doc.t) : Prop :=
  exists w w', transform_post_data E item w = (Return doc, w').

(** The world after [n] more readings of the clock. *)
Definition ticks (n : nat) (w : world) : world :=
  {| clock_reads := n + clock_reads w;
     requests_sent := requests_sent w;
     commits := commits w |}.

(** *** Execution summary *)

(** 100.0 *)
Definition hundred : spec_float := S754_finite false 7036874417766400 (-46).

(** The largest number of items a Python list holds is below [2^63]. *)
Definition max_count : Z := 2 ^ 63.

End Spec.

(** ** Sample inputs *)

Module Samples.

Definition record (userId id title body : value) : value :=
  VDict [(str "userId", userId); (str "id", id);
         (str "title", title); (str "body", body)].

(** [{userId: 1, id: 1, title: "  A  ", body: "hello world"}] *)
Definition post_1 : value :=
  record (VInt 1) (VInt 1) (VStr (str "  A  ")) (VStr (str "hello world")).

(** [{userId: True, id: False, title: "A", body: "hello world"}] *)
Definition boolean_ids : list (pystr * value) :=
  [(str "userId", VBool true); (str "id", VBool false);
   (str "title", VStr (str "A")); (str "body", VStr (str "hello world"))].

(** [{userId: "7", id: 1, title: "A", body: "hello world"}] *)
Definition numeric_string_id : list (pystr * value) :=
  [(str "userId", VStr (str "7")); (str "id", VInt 1);
   (str "title", VStr (str "A")); (str "body", VStr (str "hello world"))].

(** A function that raises a connection error on its first [failures] calls
    and returns 42 from then on; its state counts the calls. *)
Definition failing_first (failures : nat) (calls : nat) : outcome Z * nat :=
  (if Nat.ltb calls failures
   then Raise (mk_exn ConnectError (str "connection refused"))
   else Return 42,
   S calls).

(** The functions that fail without end. *)
Definition always_failing (calls : nat) : outcome Z * nat :=
  (Raise (mk_exn ConnectError (str "connection refused")), S calls).

Definition two : pynum := PFloat (S754_finite false 4503599627370496 (-51)).
Definition four : pynum := PFloat (S754_finite false 4503599627370496 (-50)).

(** The document of the post numbered [n]. *)
Definition document (n : Z) : Doc.t := {|
  Doc.user_id := VInt 1;
  Doc.post_id := VInt n;
  Doc.title := str "A";
  Doc.body := str "hello world";
  Doc.title_length := 1;
  Doc.body_length := 11;
  Doc.word_count := 2;
  Doc.fetched_at := SERVER_TIMESTAMP;
  Doc.processed_at := 0;
  Doc.source := str "jsonplaceholder";
  Doc.status := str "processed"
|}.

Definition documents (n : nat) : list Doc.t :=
  List.map (fun k => document (Z.of_nat (S k))) (seq 0 n).

Definition unavailable : exn := mk_exn StoreError (str "503 unavailable").

(** Collaborators whose store refuses the commit numbered [n] (from 0). *)
Definition store_failing_at (n : nat) : collaborators := {|
  clock := fun k => Z.of_nat k;
  http := fun _ => Response 200 None (Some (VList []));
  sleep := time_sleep;
  commit_failure := fun k => if Nat.eqb k n then Some unavailable else None;
  client_failure := None;
  health_set_failure := None;
  health_get := Return true;
  repr_other := fun _ => str "?"
|}.

(** Twenty-five fetched records; among the first ten the second has no
    body, the fifth a numeric string for [userId], the ninth a blank title. *)
Definition fetched_record (k : nat) : value :=
  let n := Z.of_nat (S k) in
  match k with
  | 1%nat => VDict [(str "userId", VInt 1); (str "id", VInt n);
                    (str "title", VStr (str "A"))]
  | 4%nat => record (VStr (str "1")) (VInt n) (VStr (str "A"))
               (VStr (str "hello world"))
  | 8%nat => record (VInt 1) (VInt n) (VStr (str "   "))
               (VStr (str "hello world"))
  | _ => record (VInt 1) (VInt n) (VStr (str "  A  "))
           (VStr (str "hello world"))
  end.

Definition fetched_25 : value := VList (List.map fetched_record (seq 0 25)).

(** [n] error strings, [Item 1: Validation failed] and so on. *)
Definition error_strings (n : nat) : list pystr :=
  List.map (fun k => str "Item " ++ PyStr.of_int (Z.of_nat (S k))
                         ++ str ": Validation failed")
           (seq 0 n).

(** A configuration that names a project. *)
Definition demo : Config.t := {|
  Config.PROJECT_ID := str "demo";
  Config.FIRESTORE_DATABASE := str "(default)";
  Config.FIRESTORE_COLLECTION := str "api_data";
  Config.EXTERNAL_API_URL := str "https://jsonplaceholder.typicode.com";
  Config.API_RETRY_MAX_ATTEMPTS := 3;
  Config.API_RETRY_DELAY := 2;
  Config.LOG_LEVEL := str "INFO"
|}.

(** The configuration [demo] with a retry delay of -1 second. *)
Definition hasty : Config.t := {|
  Config.PROJECT_ID := str "demo";
  Config.FIRESTORE_DATABASE := str "(default)";
  Config.FIRESTORE_COLLECTION := str "api_data";
  Config.EXTERNAL_API_URL := str "https://jsonplaceholder.typicode.com";
  Config.API_RETRY_MAX_ATTEMPTS := 3;
  Config.API_RETRY_DELAY := -1;
  Config.LOG_LEVEL := str "INFO"
|}.

(** Collaborators whose API answers every request with [reply]. *)
Definition answering (reply : http_reply) : collaborators := {|
  clock := fun k => Z.of_nat k;
  http := fun _ => reply;
  sleep := time_sleep;
  commit_failure := fun _ => None;
  client_failure := None;
  health_set_failure := None;
  health_get := Return true;
  repr_other := fun _ => str "?"
|}.

(** Collaborators that never fail: the clock counts its readings, every
    request is answered by [body], every commit is applied. *)
Definition serving (body : value) : collaborators := {|
  clock := fun n => Z.of_nat n;
  http := fun _ => Response 200 None (Some body);
  sleep := time_sleep;
  commit_failure := fun _ => None;
  client_failure := None;
  health_set_failure := None;
  health_get := Return true;
  repr_other := fun _ => str "?"
|}.

(** The API that answers 503 to every request. *)
Definition down : collaborators := answering (Response 503 None None).

(** The API that serves the twenty-five records. *)
Definition feed : collaborators := serving fetched_25.

(** The store that refuses its second commit. *)
Definition store_down_at_1 : collaborators := store_failing_at 1.

Definition twelve_documents : list Doc.t := documents 12.

End Samples.

(** ** The remaining functions of config.py and main.py *)

Module Endpoints.

Import Utils.

(** [Config.to_dict()]: the settings written to the log. *)
Definition to_dict (cfg : Config.t) : list (pystr * value) :=
  [ (str "project_id", VStr (Config.PROJECT_ID cfg));
    (str "firestore_database", VStr (Config.FIRESTORE_DATABASE cfg));
    (str "firestore_collection", VStr (Config.FIRESTORE_COLLECTION cfg));
    (str "api_url", VStr (Config.EXTERNAL_API_URL cfg));
    (str "api_endpoint", VStr Config.API_ENDPOINT);
    (str "retry_max_attempts", VInt (Config.API_RETRY_MAX_ATTEMPTS cfg));
    (str "retry_delay", VInt (Config.API_RETRY_DELAY cfg));
    (str "log_level", VStr (Config.LOG_LEVEL cfg)) ].

(** The dictionary of a health check that ran to its end. *)
Module Health.
Record t : Type := {
  status : pystr;
  firestore : pystr;
  timestamp : Env.timestamp;
  version : pystr
}.
End Health.

(** The dictionary of a health check that was interrupted by an exception. *)
Module Unhealthy.
Record t : Type := {
  status : pystr;
  error : pystr
}.
End Unhealthy.


Section HealthCheck.
Variable E : collaborators.

End HealthCheck.

End Endpoints.

(** ** Further vocabulary *)

Module Terms.

Import Utils Spec.

(** The store answers: its client can be built and the health document can
    be written and read back. *)
Definition reachable (E : collaborators) : bool :=
  match client_failure E, health_set_failure E, health_get E with
  | None, None, Return true => true
  | _, _, _ => false
  end.

(** The records [transform_post_data] can read: dicts that hold [userId] and
    [id], and strings under [title] and [body]. *)
Definition transformable (data : value) : bool :=
  match data with
  | VDict d =>
      has_key (str "userId") d && has_key (str "id") d
      && isinstance_str (lookup "title" d) && isinstance_str (lookup "body" d)
  | _ => false
  end.

(** An error string that names the item numbered [idx]. *)
Definition names_item (idx : Z) (msg : pystr) : Prop :=
  exists rest, msg = str "Item " ++ PyStr.of_int idx ++ str ": " ++ rest.

(** The numbers, counted from [from], of the elements that satisfy [p]. *)
Fixpoint positions {A} (p : A -> bool) (from : Z) (l : list A) : list Z :=
  match l with
  | [] => []
  | x :: l' => (if p x then [from] else []) ++ positions p (from + 1) l'
  end.

(** The four field names all occur as elements of a list, as substrings of
    a string. *)
Definition names_in_list (l : list value) : bool :=
  forallb (fun k => existsb (is_str_equal k) l) required_fields.

Definition names_in_str (s : pystr) : bool :=
  forallb (fun k => PyStr.contains s k) required_fields.

(** A string without white space at either end. *)
Definition trimmed (s : pystr) : Prop := strip s = s.

End Terms.

(** ** Further sample inputs *)

Module Cases.

(** A function that raises a connection error on its first [failures] calls
    and a [KeyboardInterrupt] from then on. *)
Definition interrupted_after (failures : nat) (calls : nat) : outcome Z * nat :=
  (if Nat.ltb calls failures
   then Raise (mk_exn ConnectError (str "connection refused"))
   else Raise (mk_exn KeyboardInterrupt (str "")),
   S calls).


(** The fields of [{userId: 1, id: 1, title: "  A  ", body: "hello world"}] *)
Definition post_1_fields : list (pystr * value) :=
  [(str "userId", VInt 1); (str "id", VInt 1);
   (str "title", VStr (str "  A  ")); (str "body", VStr (str "hello world"))].

(** The API serves the twenty-five records and the store refuses its second
    commit. *)
Definition feed_store_down_at_1 : collaborators := {|
  clock := fun k => Z.of_nat k;
  http := fun _ => Response 200 None (Some Samples.fetched_25);
  sleep := time_sleep;
  commit_failure := fun k => if Nat.eqb k 1 then Some Samples.unavailable else None;
  client_failure := None;
  health_set_failure := None;
  health_get := Return true;
  repr_other := fun _ => str "?"
|}.

End Cases.

(** * Properties *)

(** ** Strings *)

Module PyStrFacts.

Lemma eqb_spec s t : reflect (s = t) (PyStr.eqb s t).
Proof.
  revert t; induction s as [|c s IH]; destruct t as [|d t]; simpl;
    try (constructor; congruence).
  destruct (N.eqb_spec c d) as [->|Hcd]; simpl.
  - destruct (IH t) as [->|Hst]; constructor; congruence.
  - constructor; congruence.
Qed.

Lemma eqb_refl s : PyStr.eqb s s = true.
Proof. destruct (eqb_spec s s); congruence. Qed.

(** [split] produces one word for each maximal run of characters other than
    white space. *)
Lemma split_from_length cur s :
  List.length (split_from cur s) =
  match cur with
  | [] => word_starts true s
  | _ => S (word_starts false s)
  end.
Proof.
  revert cur; induction s as [|c t IH]; intros cur; simpl.
  - destruct cur; reflexivity.
  - destruct (isspace c) eqn:Hc; simpl.
    + destruct cur; simpl; rewrite IH; reflexivity.
    + rewrite IH. destruct cur; reflexivity.
Qed.

Lemma split_length s : List.length (split s) = token_count s.
Proof. unfold split, token_count. now rewrite split_from_length. Qed.

Lemma lstrip_no_space s c t : lstrip s = c :: t -> isspace c = false.
Proof.
  induction s as [|a s IH]; simpl; [discriminate|].
  destruct (isspace a) eqn:Ha; [exact IH|].
  intros H; injection H as -> _; exact Ha.
Qed.

End PyStrFacts.

(** ** Computations on the world *)

Module EnvFacts.

Lemma bind_return {A B} (c : M A) (k : A -> M B) w a w' :
  c w = (Return a, w') -> bind c k w = k a w'.
Proof. intros H. unfold bind. rewrite H. reflexivity. Qed.

Lemma bind_raise {A B} (c : M A) (k : A -> M B) w e w' :
  c w = (Raise e, w') -> bind c k w = (Raise e, w').
Proof. intros H. unfold bind. rewrite H. reflexivity. Qed.

Lemma try_except_return {A} (c : M A) classes handler w a w' :
  c w = (Return a, w') -> try_except c classes handler w = (Return a, w').
Proof. intros H. unfold try_except. rewrite H. reflexivity. Qed.

Lemma bind_inv {A B} (c : M A) (k : A -> M B) w b w' :
  bind c k w = (Return b, w') ->
  exists a w1, c w = (Return a, w1) /\ k a w1 = (Return b, w').
Proof.
  unfold bind. destruct (c w) as [[a|e] w1]; [|discriminate].
  intros H. exists a, w1. split; [reflexivity | exact H].
Qed.

End EnvFacts.

(** ** The record validator *)

Module ValidatorFacts.

Import Utils Spec.

Lemma check_required_dict fields d :
  check_required fields (VDict d) =
  Return (option_map MissingRequiredField
            (find (fun k => negb (has_key k d)) fields)).
Proof.
  induction fields as [|f fields IH]; simpl; [reflexivity|].
  unfold has_key. destruct (dict_get f d); simpl; [exact IH | reflexivity].
Qed.

Lemma invalid_or_empty_dict d k :
  invalid_or_empty (VDict d) k =
  Return match dict_get k d with
         | Some (VStr s) => match strip s with [] => true | _ => false end
         | _ => true
         end.
Proof.
  unfold invalid_or_empty; simpl.
  destruct (dict_get k d) as [[]|]; reflexivity.
Qed.

(** On a dict the validator follows its rules in order and never raises. *)
Lemma validate_post_data_log_dict d :
  validate_post_data_log (VDict d) =
  Return
    match find (fun k => negb (has_key k d)) required_fields with
    | Some f => (false, Some (MissingRequiredField f))
    | None =>
        let u := match dict_get (str "userId") d with Some v => v | None => VNone end in
        let i := match dict_get (str "id") d with Some v => v | None => VNone end in
        if negb (isinstance_int u) then (false, Some (InvalidUserIdType (type_of u)))
        else if negb (isinstance_int i) then (false, Some (InvalidIdType (type_of i)))
        else if match dict_get (str "title") d with
                | Some (VStr s) => match strip s with [] => true | _ => false end
                | _ => true
                end
        then (false, Some InvalidOrEmptyTitle)
        else if match dict_get (str "body") d with
                | Some (VStr s) => match strip s with [] => true | _ => false end
                | _ => true
                end
        then (false, Some InvalidOrEmptyBody)
        else (true, None)
    end.
Proof.
  unfold validate_post_data_log.
  rewrite check_required_dict.
  destruct (find _ required_fields) as [f|]; [reflexivity|].
  cbn [option_map obind py_get].
  destruct (negb (isinstance_int _)); [reflexivity|].
  destruct (negb (isinstance_int _)); [reflexivity|].
  rewrite !invalid_or_empty_dict. cbn [obind].
  destruct (dict_get (str "title") d) as [[]|]; try reflexivity.
  destruct (strip s); [reflexivity|].
  destruct (dict_get (str "body") d) as [[]|]; try reflexivity.
  destruct (strip s0); reflexivity.
Qed.

(** Only a dict passes validation. *)
Lemma validate_true_is_dict data :
  validate_post_data data = Return true -> exists d, data = VDict d.
Proof.
  unfold validate_post_data, validate_post_data_log.
  destruct data; try (simpl; discriminate); try (eexists; reflexivity);
    destruct (check_required required_fields _) as [[w|]|e];
    simpl; discriminate.
Qed.

(** A record that passes validation is a dict that holds the four fields,
    with strings for [title] and [body]. *)
Lemma valid_record_shape data :
  validate_post_data data = Return true ->
  exists d u i t b,
    data = VDict d /\
    dict_get (str "userId") d = Some u /\
    dict_get (str "id") d = Some i /\
    dict_get (str "title") d = Some (VStr t) /\
    dict_get (str "body") d = Some (VStr b).
Proof.
  intros Hvalid.
  destruct (validate_true_is_dict data Hvalid) as [d ->].
  unfold validate_post_data in Hvalid.
  rewrite validate_post_data_log_dict in Hvalid.
  unfold required_fields, has_key in Hvalid. cbn [find obind] in Hvalid.
  destruct (dict_get (str "userId") d) as [u|] eqn:Eu; [|discriminate].
  destruct (dict_get (str "id") d) as [i|] eqn:Ei; [|discriminate].
  destruct (dict_get (str "title") d) as [t|] eqn:Et; [|discriminate].
  destruct (dict_get (str "body") d) as [b|] eqn:Eb; [|discriminate].
  cbn [negb fst] in Hvalid.
  destruct (negb (isinstance_int u)); [discriminate|].
  destruct (negb (isinstance_int i)); [discriminate|].
  destruct t as [| | | |t| |]; try discriminate.
  destruct (strip t); [discriminate|].
  destruct b as [| | | |b| |]; try discriminate.
  exists d, u, i, t, b. repeat split; assumption.
Qed.

(** Claim C2, as the specification states it, fails on a record whose two
    identifiers are booleans: neither is an integer in the sense of the
    specification, and the validator accepts the record. *)
Lemma validate_accepts_boolean_ids :
  strict_integer (lookup "userId" Samples.boolean_ids) = false /\
  strict_integer (lookup "id" Samples.boolean_ids) = false /\
  verdict (rules strict_integer Samples.boolean_ids)
    = (false, Some (InvalidUserIdType TBool)) /\
  validate_post_data (VDict Samples.boolean_ids) = Return true.
Proof. repeat split; vm_compute; reflexivity. Qed.

(** A numeric string for [userId] is rejected, with the reason of the
    second rule. *)
Lemma validate_rejects_numeric_string :
  validate_post_data_log (VDict Samples.numeric_string_id)
  = Return (false, Some (InvalidUserIdType TStr)).
Proof. vm_compute. reflexivity. Qed.

(** Claim C2, amended: on every raw record the validator evaluates the rules
    of the specification in their order and stops at the first that fails,
    where an identifier passes when it is an instance of [int], booleans
    included (a numeric string is rejected); it returns true exactly when the
    four fields are present, [userId] and [id] are instances of [int], and
    [title] and [body] are strings that are not blank once trimmed. *)
Theorem validate_post_data_rules (d : list (pystr * value)) :
  validate_post_data_log (VDict d) = Return (verdict (rules isinstance_int d)) /\
  validate_post_data (VDict d) = Return (fst (verdict (rules isinstance_int d))) /\
  (validate_post_data (VDict d) = Return true <->
     has_key (str "userId") d = true /\ has_key (str "id") d = true /\
     has_key (str "title") d = true /\ has_key (str "body") d = true /\
     isinstance_int (lookup "userId" d) = true /\
     isinstance_int (lookup "id" d) = true /\
     nonblank_text (lookup "title" d) = true /\
     nonblank_text (lookup "body" d) = true) /\
  (forall s, isinstance_int (VStr s) = false).
Proof.
  assert (Hlog : validate_post_data_log (VDict d)
                 = Return (verdict (rules isinstance_int d))).
  { rewrite validate_post_data_log_dict.
    unfold verdict, rules, required_fields, lookup, nonblank_text, has_key.
    cbn [find fst negb].
    destruct (dict_get (str "userId") d) as [u|]; cbn [negb]; [|reflexivity].
    destruct (dict_get (str "id") d) as [i|]; cbn [negb]; [|reflexivity].
    destruct (dict_get (str "title") d) as [t|]; cbn [negb]; [|reflexivity].
    destruct (dict_get (str "body") d) as [b|]; cbn [negb]; [|reflexivity].
    destruct (isinstance_int u); cbn [negb]; [|reflexivity].
    destruct (isinstance_int i); cbn [negb]; [|reflexivity].
    destruct t; try reflexivity.
    destruct (strip s); cbn [negb]; [reflexivity|].
    destruct b; try reflexivity.
    destruct (strip s0); reflexivity. }
  assert (Hval : validate_post_data (VDict d)
                 = Return (fst (verdict (rules isinstance_int d)))).
  { unfold validate_post_data. rewrite Hlog. reflexivity. }
  split; [exact Hlog|]. split; [exact Hval|]. split; [|reflexivity].
  rewrite Hval. unfold verdict, rules. cbn [find fst].
  destruct (has_key (str "userId") d); cbn [negb];
    [|split; [discriminate | intros (H & _); discriminate]].
  destruct (has_key (str "id") d); cbn [negb];
    [|split; [discriminate | intros (_ & H & _); discriminate]].
  destruct (has_key (str "title") d); cbn [negb];
    [|split; [discriminate | intros (_ & _ & H & _); discriminate]].
  destruct (has_key (str "body") d); cbn [negb];
    [|split; [discriminate | intros (_ & _ & _ & H & _); discriminate]].
  destruct (isinstance_int (lookup "userId" d)); cbn [negb];
    [|split; [discriminate | intros (_ & _ & _ & _ & H & _); discriminate]].
  destruct (isinstance_int (lookup "id" d)); cbn [negb];
    [|split; [discriminate | intros (_ & _ & _ & _ & _ & H & _); discriminate]].
  destruct (nonblank_text (lookup "title" d)); cbn [negb];
    [|split; [discriminate | intros (_ & _ & _ & _ & _ & _ & H & _); discriminate]].
  destruct (nonblank_text (lookup "body" d)); cbn [negb];
    [|split; [discriminate | intros (_ & _ & _ & _ & _ & _ & _ & H); discriminate]].
  split; intros _; repeat split; reflexivity.
Qed.

End ValidatorFacts.

(** ** The record transformer *)

Module TransformerFacts.

Import Utils Spec ValidatorFacts.

(** The transform of a dict that holds the four fields, with strings for
    [title] and [body]; the clock is read once. *)
Lemma transform_post_data_dict (E : collaborators) d u i t b (w : world) :
  dict_get (str "userId") d = Some u ->
  dict_get (str "id") d = Some i ->
  dict_get (str "title") d = Some (VStr t) ->
  dict_get (str "body") d = Some (VStr b) ->
  transform_post_data E (VDict d) w =
  (Return {| Doc.user_id := u;
             Doc.post_id := i;
             Doc.title := strip t;
             Doc.body := strip b;
             Doc.title_length := PyStr.len (strip t);
             Doc.body_length := PyStr.len (strip b);
             Doc.word_count := Z.of_nat (List.length (split (strip b)));
             Doc.fetched_at := SERVER_TIMESTAMP;
             Doc.processed_at := clock E (clock_reads w);
             Doc.source := str "jsonplaceholder";
             Doc.status := str "processed" |},
   tick w).
Proof.
  intros Eu Ei Et Eb.
  unfold transform_post_data, bind, lift, ret, utcnow, tick, py_getitem.
  rewrite Eu, Ei, Et, Eb. reflexivity.
Qed.

(** Claim C7: on every raw record that passes validation, the transformer
    returns a document whose title and body are the trimmed input strings,
    whose [title_length] and [body_length] are the numbers of characters of
    the trimmed strings, and whose [word_count] is the number of maximal runs
    of characters other than white space in the trimmed body. *)
Theorem transform_post_data_of_valid (E : collaborators) (data : value) (w : world) :
  validate_post_data data = Return true ->
  exists d t b,
    data = VDict d /\
    dict_get (str "title") d = Some (VStr t) /\
    dict_get (str "body") d = Some (VStr b) /\
    transform_post_data E data w =
    (Return {| Doc.user_id := lookup "userId" d;
               Doc.post_id := lookup "id" d;
               Doc.title := strip t;
               Doc.body := strip b;
               Doc.title_length := Z.of_nat (List.length (strip t));
               Doc.body_length := Z.of_nat (List.length (strip b));
               Doc.word_count := Z.of_nat (token_count (strip b));
               Doc.fetched_at := SERVER_TIMESTAMP;
               Doc.processed_at := clock E (clock_reads w);
               Doc.source := str "jsonplaceholder";
               Doc.status := str "processed" |},
     tick w).
Proof.
  intros Hvalid.
  destruct (valid_record_shape data Hvalid)
    as (d & u & i & t & b & -> & Eu & Ei & Et & Eb).
  exists d, t, b.
  split; [reflexivity|]. split; [exact Et|]. split; [exact Eb|].
  rewrite (transform_post_data_dict E d u i t b w Eu Ei Et Eb).
  unfold lookup, PyStr.len. rewrite Eu, Ei.
  rewrite PyStrFacts.split_length. reflexivity.
Qed.

(** The record of the specification,
    [{userId: 1, id: 1, title: "  A  ", body: "hello world"}]. *)
Lemma transform_post_data_of_post_1 :
  validate_post_data Samples.post_1 = Return true /\
  exists doc w,
    transform_post_data (Samples.serving VNone) Samples.post_1 Env.initial
      = (Return doc, w) /\
    Doc.title doc = str "A" /\ Doc.title_length doc = 1 /\
    Doc.body doc = str "hello world" /\ Doc.body_length doc = 11 /\
    Doc.word_count doc = 2.
Proof.
  assert (Hvalid : validate_post_data Samples.post_1 = Return true)
    by (vm_compute; reflexivity).
  split; [exact Hvalid|].
  destruct (transform_post_data_of_valid (Samples.serving VNone)
              Samples.post_1 Env.initial Hvalid)
    as (d & t & b & Hd & Ht & Hb & Hdoc).
  injection Hd as <-.
  vm_compute in Ht; injection Ht as <-.
  vm_compute in Hb; injection Hb as <-.
  eexists _, _. split; [exact Hdoc|].
  vm_compute. repeat split; reflexivity.
Defined.

End TransformerFacts.

(** ** The backoff executor *)

Module ExecutorFacts.

Import Utils Spec.

Lemma range_empty start stop : stop <= start -> range start stop = [].
Proof.
  intros H. unfold range.
  replace (Z.to_nat (stop - start)) with O by lia. reflexivity.
Qed.

Lemma range_cons start stop :
  start < stop -> range start stop = start :: range (start + 1) stop.
Proof.
  intros H. unfold range.
  replace (Z.to_nat (stop - start)) with (S (Z.to_nat (stop - (start + 1)))) by lia.
  cbn [seq List.map]. rewrite <- seq_shift, map_map.
  f_equal; [lia|]. apply map_ext. intros k. lia.
Qed.

Lemma validate_raises_configuration_error (cfg : Config.t) (e : exn) :
  Config.validate cfg = Raise e -> configuration_error e.
Proof.
  unfold Config.validate. destruct (Config.PROJECT_ID cfg); [|discriminate].
  intros H. injection H as <-. reflexivity.
Qed.

(** Claim C3, as the specification states it, fails with no attempt allowed:
    the executor does fail before any call, but what it raises is the
    [TypeError] of [raise None], which is no configuration error. *)
Lemma retry_zero_attempts_type_error :
  exists e,
    retry_with_backoff time_sleep (Samples.failing_first 0) 0 Samples.two
      [Exception] (PInt 2) O = (Raise e, O, []) /\
    exn_class_of e = TypeError /\
    ~ configuration_error e.
Proof.
  eexists. split; [vm_compute; reflexivity|].
  split; [reflexivity|].
  unfold configuration_error. cbn. discriminate.
Qed.

(** Claim C3, amended: for every [max_attempts <= 0] the executor never calls
    the wrapped function and never waits; it fails at once, with the
    [TypeError] that raising the unset [last_exception] produces. *)
Theorem retry_with_backoff_no_attempt {A S : Type}
    (sleep : pynum -> outcome unit) (func : S -> outcome A * S)
    (max_attempts : Z) (backoff_factor : pynum) (exceptions : list exn_class)
    (initial_delay : pynum) (s : S) :
  max_attempts <= 0 ->
  retry_with_backoff sleep func max_attempts backoff_factor exceptions
    initial_delay s
  = (Raise (mk_exn TypeError (str "exceptions must derive from BaseException")),
     s, []).
Proof.
  intros Hmax. unfold retry_with_backoff.
  rewrite range_empty by lia. reflexivity.
Qed.

Lemma retry_with_backoff_no_attempt_at_minus_3 :
  retry_with_backoff time_sleep Samples.always_failing (-3) Samples.two
    [Exception] (PInt 2) O
  = (Raise (mk_exn TypeError (str "exceptions must derive from BaseException")),
     O, []).
Proof. apply retry_with_backoff_no_attempt. lia. Defined.

(** Claim C4, as the specification states it, fails for a negative initial
    delay: the function fails twice and would succeed on its third call, but
    the first wait is refused by [time.sleep], whose [ValueError] leaves the
    executor after one attempt and no wait. *)
Lemma retry_negative_delay_aborts :
  Samples.failing_first 2 0%nat
    = (Raise (mk_exn ConnectError (str "connection refused")), 1%nat) /\
  Samples.failing_first 2 1%nat
    = (Raise (mk_exn ConnectError (str "connection refused")), 2%nat) /\
  Samples.failing_first 2 2%nat = (Return 42, 3%nat) /\
  retry_with_backoff time_sleep (Samples.failing_first 2) 3 Samples.two
    [Exception] (PInt (-1)) O
  = (Raise (mk_exn ValueError (str "sleep length must be non-negative")),
     1%nat, [Attempt 1]).
Proof. repeat split; vm_compute; reflexivity. Qed.

(** Claim C4, amended: when the first wait (of [initial_delay]) and the second
    (of [initial_delay * backoff_factor]) are accepted by [time.sleep] and the
    product can be computed, then with [max_attempts = 3] a function that
    fails retryably on its first two calls and succeeds on the third has its
    result returned after exactly those two waits, and a function that fails
    retryably on all three calls has its last failure propagated after
    exactly three attempts and those two waits. *)
Theorem retry_with_backoff_three_attempts {A S : Type}
    (sleep : pynum -> outcome unit) (func : S -> outcome A * S)
    (backoff_factor : pynum) (exceptions : list exn_class)
    (initial_delay second_delay : pynum)
    (s0 s1 s2 s3 : S) (e1 e2 : exn) :
  func s0 = (Raise e1, s1) -> catches exceptions e1 = true ->
  func s1 = (Raise e2, s2) -> catches exceptions e2 = true ->
  sleep initial_delay = Return tt ->
  py_mul initial_delay backoff_factor = Return second_delay ->
  sleep second_delay = Return tt ->
  (forall result, func s2 = (Return result, s3) ->
     retry_with_backoff sleep func 3 backoff_factor exceptions initial_delay s0
     = (Return result, s3,
        [Attempt 1; Wait initial_delay; Attempt 2; Wait second_delay; Attempt 3]))
  /\
  (forall e3, func s2 = (Raise e3, s3) -> catches exceptions e3 = true ->
     retry_with_backoff sleep func 3 backoff_factor exceptions initial_delay s0
     = (Raise e3, s3,
        [Attempt 1; Wait initial_delay; Attempt 2; Wait second_delay; Attempt 3])).
Proof.
  intros H1 C1 H2 C2 Hsleep1 Hmul Hsleep2.
  assert (Hmul2 : exists third_delay,
             py_mul second_delay backoff_factor = Return third_delay).
  { destruct initial_delay as [x|f], backoff_factor as [y|g];
      cbn [py_mul] in Hmul |- *.
    - injection Hmul as <-. eexists; reflexivity.
    - destruct (float_of_int x); [|discriminate].
      injection Hmul as <-. eexists; reflexivity.
    - destruct (float_of_int y) as [g|] eqn:Hy; [|discriminate].
      injection Hmul as <-. cbn [py_mul]. rewrite Hy. eexists; reflexivity.
    - injection Hmul as <-. eexists; reflexivity. }
  destruct Hmul2 as [third_delay Hmul2].
  unfold retry_with_backoff.
  change (range 1 (3 + 1)) with [1; 2; 3].
  split.
  - intros result H3. cbn [retry_loop].
    rewrite H1, C1. change (1 <? 3) with true. cbv iota.
    rewrite Hsleep1, Hmul, H2, C2. change (2 <? 3) with true. cbv iota.
    rewrite Hsleep2, Hmul2, H3. reflexivity.
  - intros e3 H3 C3. cbn [retry_loop].
    rewrite H1, C1. change (1 <? 3) with true. cbv iota.
    rewrite Hsleep1, Hmul, H2, C2. change (2 <? 3) with true. cbv iota.
    rewrite Hsleep2, Hmul2, H3, C3. change (3 <? 3) with false. reflexivity.
Qed.

(** The two runs of the specification, with an initial delay of 2 seconds and
    a factor of 2.0: the waits last 2 and 4.0 seconds. *)
Lemma retry_with_backoff_three_attempts_at_2 :
  retry_with_backoff time_sleep (Samples.failing_first 2) 3 Samples.two
    [Exception] (PInt 2) O
  = (Return 42, 3%nat,
     [Attempt 1; Wait (PInt 2); Attempt 2; Wait Samples.four; Attempt 3]) /\
  retry_with_backoff time_sleep Samples.always_failing 3 Samples.two
    [Exception] (PInt 2) O
  = (Raise (mk_exn ConnectError (str "connection refused")), 3%nat,
     [Attempt 1; Wait (PInt 2); Attempt 2; Wait Samples.four; Attempt 3]).
Proof.
  split.
  - apply (retry_with_backoff_three_attempts time_sleep (Samples.failing_first 2)
             Samples.two [Exception] (PInt 2) Samples.four
             0%nat 1%nat 2%nat 3%nat
             (mk_exn ConnectError (str "connection refused"))
             (mk_exn ConnectError (str "connection refused")));
      vm_compute; reflexivity.
  - apply (retry_with_backoff_three_attempts time_sleep Samples.always_failing
             Samples.two [Exception] (PInt 2) Samples.four
             0%nat 1%nat 2%nat 3%nat
             (mk_exn ConnectError (str "connection refused"))
             (mk_exn ConnectError (str "connection refused")));
      vm_compute; reflexivity.
Defined.

End ExecutorFacts.

(** ** The batch writer *)

Module BatchWriterFacts.

Import Utils Spec.

Lemma range_step_done start stop step :
  0 < step -> stop <= start -> range_step start stop step = Return [].
Proof.
  intros Hstep Hstop. unfold range_step.
  destruct (Z.eqb_spec step 0) as [|_]; [lia|].
  destruct (Z.ltb_spec 0 step) as [_|]; [|lia].
  replace (Z.to_nat ((stop - start + step - 1) / step)) with O; [reflexivity|].
  assert ((stop - start + step - 1) / step < 1)
    by (apply Z.div_lt_upper_bound; lia).
  lia.
Qed.

Lemma range_step_next start stop step :
  0 < step -> start < stop ->
  exists rest,
    range_step (start + step) stop step = Return rest /\
    range_step start stop step = Return (start :: rest).
Proof.
  intros Hstep Hstop. unfold range_step.
  destruct (Z.eqb_spec step 0) as [|_]; [lia|].
  destruct (Z.ltb_spec 0 step) as [_|]; [|lia].
  eexists; split; [reflexivity|].
  replace (stop - start + step - 1)
    with ((stop - (start + step) + step - 1) + 1 * step) by lia.
  rewrite Z.div_add by lia.
  assert (0 <= (stop - (start + step) + step - 1) / step)
    by (apply Z.div_pos; lia).
  replace (Z.to_nat ((stop - (start + step) + step - 1) / step + 1))
    with (S (Z.to_nat ((stop - (start + step) + step - 1) / step))) by lia.
  cbn [seq List.map]. rewrite <- seq_shift, map_map.
  f_equal. f_equal; [lia|]. apply map_ext. intros k. lia.
Qed.

(** The slices the loop cuts are the consecutive chunks of the items. *)
Lemma slices_are_chunks {A} (items : list A) (batch_size : Z) :
  1 <= batch_size ->
  forall fuel i, 0 <= i ->
    (List.length items - Z.to_nat i <= fuel)%nat ->
    exists starts,
      range_step i (Z.of_nat (List.length items)) batch_size = Return starts /\
      List.map (fun i => slice items i (i + batch_size)) starts
      = chunks_upto fuel (Z.to_nat batch_size) (skipn (Z.to_nat i) items).
Proof.
  intros Hsize. induction fuel as [|fuel IH]; intros i Hi Hfuel.
  - exists []. split; [apply range_step_done; lia | reflexivity].
  - destruct (Z.lt_ge_cases i (Z.of_nat (List.length items))) as [Hlt|Hge].
    + destruct (range_step_next i (Z.of_nat (List.length items)) batch_size)
        as (rest & Hrest & Hstarts); [lia|lia|].
      destruct (IH (i + batch_size)) as (starts & Hs & Hmap); [lia|lia|].
      rewrite Hs in Hrest. injection Hrest as <-.
      exists (i :: starts). split; [exact Hstarts|].
      cbn [List.map chunks_upto].
      destruct (skipn (Z.to_nat i) items) as [|x l] eqn:Hskip.
      { apply (f_equal (@List.length A)) in Hskip.
        rewrite length_skipn in Hskip. simpl in Hskip. lia. }
      rewrite <- Hskip. f_equal.
      * unfold slice. f_equal. f_equal. lia.
      * rewrite Hmap. f_equal. rewrite skipn_skipn. f_equal. lia.
    + exists []. split; [apply range_step_done; lia|].
      rewrite skipn_all2 by lia. reflexivity.
Qed.

Lemma chunks_upto_concat {A} (size : nat) :
  (1 <= size)%nat ->
  forall fuel (l : list A), (List.length l <= fuel)%nat ->
    List.concat (chunks_upto fuel size l) = l /\
    Forall (fun c => (1 <= List.length c <= size)%nat) (chunks_upto fuel size l).
Proof.
  intros Hsize. induction fuel as [|fuel IH]; intros l Hl.
  - destruct l; [split; [reflexivity | constructor] | simpl in Hl; lia].
  - destruct l as [|x l]; [split; [reflexivity | constructor]|].
    cbn [chunks_upto].
    destruct (IH (skipn size (x :: l))) as [Hcat Hall].
    { rewrite length_skipn. cbn [List.length] in *. lia. }
    split.
    + cbn [List.concat]. rewrite Hcat. apply firstn_skipn.
    + constructor; [|exact Hall].
      rewrite length_firstn. cbn [List.length]. lia.
Qed.

Lemma logged_nil w : logged w [] = w.
Proof. destruct w. unfold logged. cbn. now rewrite app_nil_r. Qed.

Lemma logged_logged w a b : logged (logged w a) b = logged w (a ++ b).
Proof. unfold logged. cbn. now rewrite app_assoc. Qed.

Lemma commit_applied E batch w :
  commit_failure E (List.length (commits w)) = None ->
  commit E batch w = (Return tt, logged w [(batch, true)]).
Proof. intros H. unfold commit. rewrite H. reflexivity. Qed.

Lemma commit_refused E batch w e :
  commit_failure E (List.length (commits w)) = Some e ->
  commit E batch w = (Raise e, logged w [(batch, false)]).
Proof. intros H. unfold commit. rewrite H. reflexivity. Qed.

Section Loop.
Variable E : collaborators.
Variable collection_name : pystr.
Variable items : list Doc.t.
Variable batch_size : Z.

Local Abbreviation chunk_at := (fun i : Z => slice items i (i + batch_size)).
Local Abbreviation applied := (fun c : list Doc.t => (batch_of E collection_name c, true)).
Local Abbreviation refused := (fun c : list Doc.t => (batch_of E collection_name c, false)).

(** While the commits succeed, every chunk is applied and counted. *)
Lemma write_batches_all_applied starts : forall total w,
  (forall j, (j < List.length starts)%nat ->
     commit_failure E (List.length (commits w) + j) = None) ->
  write_batches E collection_name items batch_size starts total w
  = ((total + Z.of_nat (List.length (List.concat (List.map chunk_at starts))), None),
     logged w (List.map applied (List.map chunk_at starts))).
Proof.
  induction starts as [|i starts IH]; intros total w Hok.
  - cbn. rewrite logged_nil. do 2 f_equal. lia.
  - cbn [write_batches]. rewrite commit_applied.
    2:{ specialize (Hok O). rewrite Nat.add_0_r in Hok. apply Hok. simpl. lia. }
    rewrite IH.
    2:{ intros j Hj. unfold logged. cbn. rewrite length_app. cbn.
        replace (List.length (commits w) + 1 + j)%nat
          with (List.length (commits w) + S j)%nat by lia.
        apply Hok. simpl. lia. }
    rewrite logged_logged. cbn [List.map List.concat app].
    rewrite length_app. do 2 f_equal. lia.
Qed.

(** At the first commit that fails the loop is left: the chunks before it
    are applied and counted, the failing one is neither, and no other is
    handed to the store. *)
Lemma write_batches_first_failure starts : forall j e total w,
  (j < List.length starts)%nat ->
  (forall i, (i < j)%nat ->
     commit_failure E (List.length (commits w) + i) = None) ->
  commit_failure E (List.length (commits w) + j) = Some e ->
  write_batches E collection_name items batch_size starts total w
  = ((total + Z.of_nat (List.length
                          (List.concat (firstn j (List.map chunk_at starts)))),
      Some e),
     logged w (List.map applied (firstn j (List.map chunk_at starts))
               ++ [refused (nth j (List.map chunk_at starts) [])])).
Proof.
  induction starts as [|i starts IH]; intros j e total w Hj Hok Hfail.
  - simpl in Hj. lia.
  - cbn [write_batches]. destruct j as [|j].
    + rewrite Nat.add_0_r in Hfail. rewrite (commit_refused _ _ _ e Hfail).
      cbn. do 2 f_equal. lia.
    + rewrite commit_applied.
      2:{ specialize (Hok O). rewrite Nat.add_0_r in Hok. apply Hok. lia. }
      rewrite (IH j e).
      * rewrite logged_logged. cbn [List.map firstn List.concat nth app].
        rewrite length_app. do 2 f_equal. lia.
      * simpl in Hj. lia.
      * intros k Hk. unfold logged. cbn. rewrite length_app. cbn.
        replace (List.length (commits w) + 1 + k)%nat
          with (List.length (commits w) + S k)%nat by lia.
        apply Hok. lia.
      * unfold logged. cbn. rewrite length_app. cbn.
        replace (List.length (commits w) + 1 + j)%nat
          with (List.length (commits w) + S j)%nat by lia.
        exact Hfail.
Qed.
End Loop.

(** Claim C5: for every sequence of documents and every [batch_size >= 1]
    the batch writer hands the store the consecutive chunks of at most
    [batch_size] documents.  When every commit succeeds it returns the number
    of documents.  When the commit of a chunk fails, the count stands at the
    sizes of the chunks before it, the failing chunk is not counted, no later
    chunk is handed to the store, and the error is raised to the caller. *)
Theorem batch_write_to_firestore_chunks (E : collaborators)
    (collection_name : pystr) (items : list Doc.t) (batch_size : Z) (w : world) :
  1 <= batch_size ->
  let cs := chunks (Z.to_nat batch_size) items in
  let applied c := (batch_of E collection_name c, true) in
  let refused c := (batch_of E collection_name c, false) in
  (List.concat cs = items /\
   Forall (fun c => (1 <= List.length c <= Z.to_nat batch_size)%nat) cs) /\
  ((forall j, (j < List.length cs)%nat ->
      commit_failure E (List.length (commits w) + j) = None) ->
   batch_write_to_firestore E collection_name items batch_size w
   = (Return (Z.of_nat (List.length items)), logged w (List.map applied cs))) /\
  (forall j e,
     (j < List.length cs)%nat ->
     (forall i, (i < j)%nat ->
        commit_failure E (List.length (commits w) + i) = None) ->
     commit_failure E (List.length (commits w) + j) = Some e ->
     let w' := logged w (List.map applied (firstn j cs) ++ [refused (nth j cs [])]) in
     batch_write_locals E collection_name items batch_size w
     = (Return (Z.of_nat (List.length (List.concat (firstn j cs))), Some e), w') /\
     batch_write_to_firestore E collection_name items batch_size w
     = (Raise e, w')).
Proof.
  intros Hsize cs applied refused.
  destruct (slices_are_chunks items batch_size Hsize (List.length items) 0)
    as (starts & Hstarts & Hmap); [lia|lia|].
  change (Z.to_nat 0) with O in Hmap. cbn [skipn] in Hmap.
  fold (chunks (Z.to_nat batch_size) items) in Hmap. fold cs in Hmap.
  destruct (chunks_upto_concat (Z.to_nat batch_size) ltac:(lia)
              (List.length items) items (le_n _)) as [Hcat Hall].
  fold (chunks (Z.to_nat batch_size) items) in Hcat, Hall. fold cs in Hcat, Hall.
  split; [split; assumption|]. split.
  - intros Hok. unfold batch_write_to_firestore, batch_write_locals.
    rewrite Hstarts, write_batches_all_applied.
    + rewrite Hmap, Hcat. reflexivity.
    + intros j Hj. apply Hok. rewrite <- Hmap, length_map. exact Hj.
  - intros j e Hj Hok Hfail w'.
    assert (Hloc : batch_write_locals E collection_name items batch_size w
                   = (Return (Z.of_nat (List.length (List.concat (firstn j cs))),
                              Some e), w')).
    { unfold batch_write_locals.
      rewrite Hstarts, (write_batches_first_failure _ _ _ _ _ j e).
      - rewrite Hmap. reflexivity.
      - rewrite <- Hmap, length_map in Hj. exact Hj.
      - exact Hok.
      - exact Hfail. }
    split; [exact Hloc|].
    unfold batch_write_to_firestore. rewrite Hloc. reflexivity.
Qed.

(** Twelve documents in batches of five, the second commit failing: the
    chunks hold 5, 5 and 2 documents, the count stands at 5, the store saw
    two batches and applied the first, and the error is raised. *)
Lemma batch_write_to_firestore_12_by_5 :
  List.map (@List.length Doc.t) (chunks 5 Samples.twelve_documents)
    = [5; 5; 2]%nat /\
  fst (batch_write_locals Samples.store_down_at_1 (str "api_data")
         Samples.twelve_documents 5 Env.initial)
    = Return (5, Some Samples.unavailable) /\
  List.map snd
    (commits (snd (batch_write_locals Samples.store_down_at_1 (str "api_data")
                     Samples.twelve_documents 5 Env.initial)))
    = [true; false] /\
  fst (batch_write_to_firestore Samples.store_down_at_1 (str "api_data")
         Samples.twelve_documents 5 Env.initial)
    = Raise Samples.unavailable.
Proof.
  destruct (batch_write_to_firestore_chunks Samples.store_down_at_1
              (str "api_data") Samples.twelve_documents 5 Env.initial
              ltac:(lia))
    as (_ & _ & Hfail).
  destruct (Hfail 1%nat Samples.unavailable) as [Hloc Hraise].
  - vm_compute. lia.
  - intros i Hi. assert (i = O) by lia. subst i. reflexivity.
  - reflexivity.
  - rewrite Hloc, Hraise. vm_compute. repeat split; reflexivity.
Defined.

End BatchWriterFacts.

(** ** Binary64 arithmetic *)

Module FloatFacts.

Import Spec.

(** The number of binary digits of a mantissa is one more than its binary
    logarithm. *)
Lemma digits2_pos_size p : digits2_pos p = Pos.size p.
Proof. induction p; simpl; congruence. Qed.

Lemma Zdigits2_log2 m : 0 < m -> Zdigits2 m = Z.log2 m + 1.
Proof.
  destruct m as [|p|p]; try lia. intros _. simpl.
  rewrite digits2_pos_size. destruct p; simpl; lia.
Qed.

Lemma Zdigits2_nonneg m : 0 <= Zdigits2 m.
Proof. destruct m; simpl; lia. Qed.

Lemma Zdigits2_le m n : 0 <= m <= n -> Zdigits2 m <= Zdigits2 n.
Proof.
  intros [Hm Hn]. destruct (Z.eq_dec m 0) as [->|Hm0].
  - apply Zdigits2_nonneg.
  - rewrite !Zdigits2_log2 by lia.
    pose proof (Z.log2_le_mono m n Hn). lia.
Qed.

Lemma Zdigits2_succ m : 0 <= m -> Zdigits2 (m + 1) <= Zdigits2 m + 1.
Proof.
  intros Hm. destruct (Z.eq_dec m 0) as [->|Hm0]; [simpl; lia|].
  rewrite !Zdigits2_log2 by lia.
  assert (Z.log2 (m + 1) <= Z.log2 (2 * m)) by (apply Z.log2_le_mono; lia).
  rewrite Z.log2_double in H by lia. lia.
Qed.

(** Shifting a rounding record right halves its mantissa. *)
Lemma shr_1_m mrs :
  0 <= shr_m mrs -> shr_m (shr_1 mrs) = Z.shiftr (shr_m mrs) 1.
Proof.
  destruct mrs as [m r s]. simpl. intros Hm.
  rewrite <- Z.div2_spec.
  destruct m as [|[p|p|]|p]; try reflexivity; lia.
Qed.

Lemma iter_shr_1_m p : forall mrs,
  0 <= shr_m mrs ->
  shr_m (iter_pos shr_1 p mrs) = Z.shiftr (shr_m mrs) (Zpos p).
Proof.
  induction p as [p IH|p IH|]; intros mrs Hm; simpl iter_pos.
  - assert (H1 : 0 <= shr_m (shr_1 mrs))
      by (rewrite shr_1_m by assumption; apply Z.shiftr_nonneg; assumption).
    assert (H2 : 0 <= shr_m (iter_pos shr_1 p (shr_1 mrs)))
      by (rewrite IH by assumption; apply Z.shiftr_nonneg; assumption).
    rewrite IH, IH, shr_1_m by assumption.
    rewrite !Z.shiftr_shiftr by lia. f_equal. lia.
  - assert (H2 : 0 <= shr_m (iter_pos shr_1 p mrs))
      by (rewrite IH by assumption; apply Z.shiftr_nonneg; assumption).
    rewrite IH, IH by assumption.
    rewrite !Z.shiftr_shiftr by lia. f_equal. lia.
  - apply shr_1_m. assumption.
Qed.

Lemma shr_record_of_loc_m m l : shr_m (shr_record_of_loc m l) = m.
Proof. destruct l as [|[]]; reflexivity. Qed.

(** Aligning a mantissa on the exponent of its format keeps it non-negative
    and does not raise its magnitude [digits + exponent] above the larger of
    the old magnitude and the new exponent. *)
Lemma shr_fexp_bounds m e l :
  0 <= m ->
  let '(mrs, e') := shr_fexp 53 1024 m e l in
  0 <= shr_m mrs /\
  e' = Z.max e (fexp 53 1024 (Zdigits2 m + e)) /\
  Zdigits2 (shr_m mrs) + e' <= Z.max (Zdigits2 m + e) e'.
Proof.
  intros Hm. unfold shr_fexp, shr.
  destruct (fexp 53 1024 (Zdigits2 m + e) - e) as [|p|p] eqn:Hn.
  - rewrite shr_record_of_loc_m. repeat split; lia.
  - pose proof (shr_record_of_loc_m m l) as Hrec.
    rewrite iter_shr_1_m by (rewrite Hrec; assumption). rewrite Hrec.
    pose proof (Z.shiftr_nonneg m (Zpos p)) as Hnn.
    split; [apply Hnn; assumption|]. split; [lia|].
    destruct (Z.eq_dec (Z.shiftr m (Zpos p)) 0) as [->|Hz]; [simpl; lia|].
    assert (0 < Z.shiftr m (Zpos p))
      by (apply proj2 in Hnn; specialize (Hnn Hm); lia).
    assert (0 < m).
    { destruct (Z.eq_dec m 0) as [->|]; [|lia]. rewrite Z.shiftr_0_l in H. lia. }
    assert (Zpos p <= Z.log2 m).
    { destruct (Z.le_gt_cases (Zpos p) (Z.log2 m)) as [|Hlt]; [assumption|].
      rewrite (Z.shiftr_eq_0 m (Zpos p)) in Hz by lia. congruence. }
    rewrite !Zdigits2_log2 by assumption.
    rewrite Z.log2_shiftr by assumption. lia.
  - rewrite shr_record_of_loc_m. repeat split; lia.
Qed.

Lemma round_nearest_even_bounds m l :
  m <= round_nearest_even m l <= m + 1.
Proof. destruct l as [|[]]; simpl; try lia. destruct (Z.even m); lia. Qed.

(** Rounding to nearest even yields no infinity when the magnitude of the
    number is at most [2^1022]. *)
Lemma binary_round_aux_finite sx mx ex lx :
  0 <= mx -> Zdigits2 mx + ex <= 1022 -> ex <= 970 ->
  forall s, binary_round_aux 53 1024 sx mx ex lx <> S754_infinity s.
Proof.
  intros Hm Hd He s. unfold binary_round_aux.
  pose proof (shr_fexp_bounds mx ex lx Hm) as H1.
  destruct (shr_fexp 53 1024 mx ex lx) as [mrs' e'].
  destruct H1 as (Hm' & He' & Hd').
  pose proof (round_nearest_even_bounds (shr_m mrs') (loc_of_shr_record mrs')) as Hr.
  set (m1 := round_nearest_even (shr_m mrs') (loc_of_shr_record mrs')) in *.
  assert (Hm1 : 0 <= m1) by lia.
  pose proof (shr_fexp_bounds m1 e' loc_Exact Hm1) as H2.
  destruct (shr_fexp 53 1024 m1 e' loc_Exact) as [mrs'' e''].
  destruct H2 as (Hm'' & He'' & _).
  assert (Zdigits2 m1 <= Zdigits2 (shr_m mrs') + 1).
  { pose proof (Zdigits2_le m1 (shr_m mrs' + 1) ltac:(lia)).
    pose proof (Zdigits2_succ (shr_m mrs') Hm'). lia. }
  assert (e'' <= 971).
  { unfold fexp, emin in *. lia. }
  destruct (shr_m mrs''); try discriminate.
  destruct (Z.leb_spec e'' (1024 - 53)); [discriminate | lia].
Qed.

(** The quotient the division hands to the rounding has at most the
    magnitude of the dividend. *)
Lemma SFdiv_core_binary_bounds m1 m2 :
  0 < m1 -> 0 < m2 ->
  let '(q, e', _) := SFdiv_core_binary 53 1024 m1 0 m2 0 in
  0 <= q /\ e' <= 0 /\ Zdigits2 q + e' <= Zdigits2 m1.
Proof.
  intros H1 H2. unfold SFdiv_core_binary.
  set (e' := Z.min _ _).
  assert (He' : e' <= 0).
  { pose proof (Z.le_min_r (fexp 53 1024 (Zdigits2 m1 + 0 - (Zdigits2 m2 + 0)))
                  (0 - 0)) as Hmin.
    fold e' in Hmin. exact Hmin. }
  clearbody e'.
  set (m' := match 0 - 0 - e' with
             | Z0 => m1
             | Zpos _ => Z.shiftl m1 (0 - 0 - e')
             | Zneg _ => 0
             end).
  assert (Hm' : 0 < m' /\ Zdigits2 m' = Zdigits2 m1 - e').
  { unfold m'. destruct (0 - 0 - e') as [|p|p] eqn:Hs; cbv beta iota; try lia.
    assert (0 < Z.shiftl m1 (Zpos p)).
    { rewrite Z.shiftl_mul_pow2 by lia. apply Z.mul_pos_pos; [lia|].
      apply Z.pow_pos_nonneg; lia. }
    split; [assumption|].
    rewrite !Zdigits2_log2 by assumption.
    rewrite Z.log2_shiftl by lia. lia. }
  destruct Hm' as [Hm'pos Hm'd].
  pose proof (Z_div_mod m' m2 ltac:(lia)) as Hdm.
  destruct (Z.div_eucl m' m2) as [q r]. destruct Hdm as [Heq Hr].
  assert (0 <= q) by nia.
  assert (q <= m') by nia.
  pose proof (Zdigits2_le q m' ltac:(lia)).
  repeat split; lia.
Qed.

Lemma digits_below_2_pow_1000 p :
  Zpos p < 2 ^ 1000 -> Zdigits2 (Zpos p) <= 1000.
Proof.
  intros Hp. rewrite Zdigits2_log2 by lia.
  assert (Z.log2 (Zpos p) < 1000) by (apply Z.log2_lt_pow2; lia). lia.
Qed.

(** The quotient of two finite numbers with exponent 0, the dividend below
    [2^1000], is not an infinity. *)
Lemma f64_div_finite sa pa sb pb :
  Zpos pa < 2 ^ 1000 ->
  forall s, f64_div (S754_finite sa pa 0) (S754_finite sb pb 0)
            <> S754_infinity s.
Proof.
  intros Hpa s. unfold f64_div, SFdiv.
  pose proof (digits_below_2_pow_1000 pa Hpa) as Hda.
  pose proof (SFdiv_core_binary_bounds (Zpos pa) (Zpos pb)
                ltac:(lia) ltac:(lia)) as Hcore.
  destruct (SFdiv_core_binary 53 1024 (Zpos pa) 0 (Zpos pb) 0) as [[mz ez] lz].
  destruct Hcore as (Hq & He & Hd).
  apply binary_round_aux_finite; [exact Hq | lia | lia].
Qed.

(** The quotient of two integers is a [float] unless it is too large for
    one; a dividend below [2^1000] in magnitude is far from that. *)
Lemma int_truediv_returns a b :
  b <> 0 -> Z.abs a < 2 ^ 1000 -> exists q, int_truediv a b = Return q.
Proof.
  intros Hb Ha. unfold int_truediv.
  destruct (Z.eqb_spec b 0) as [|_]; [contradiction|].
  destruct a as [|pa|pa], b as [|pb|pb]; try contradiction;
    try (eexists; reflexivity); cbn [exact_float];
    match goal with
    | |- context [f64_div (S754_finite ?sa pa 0) (S754_finite ?sb pb 0)] =>
        pose proof (f64_div_finite sa pa sb pb ltac:(lia)) as Hfin;
        destruct (f64_div (S754_finite sa pa 0) (S754_finite sb pb 0))
          as [| s0 | |];
        try (eexists; reflexivity);
        exfalso; apply (Hfin s0); reflexivity
    end.
Qed.

Lemma float_of_int_100 : float_of_int 100 = Return hundred.
Proof. vm_compute. reflexivity. Qed.

End FloatFacts.

(** ** The execution summary *)

Module SummaryFacts.

Import Utils Spec EnvFacts FloatFacts.

Lemma success_rate_of_returns total_stored total_fetched :
  Z.abs total_stored < 2 ^ 1000 ->
  exists rate,
    success_rate_of total_stored total_fetched = Return rate /\
    (0 < total_fetched ->
       exists q, int_truediv total_stored total_fetched = Return q /\
                 rate = PFloat (f64_mul q hundred)) /\
    (total_fetched <= 0 -> rate = PInt 0).
Proof.
  intros Hstored. unfold success_rate_of.
  destruct (Z.ltb_spec 0 total_fetched) as [Hpos|Hneg].
  - destruct (int_truediv_returns total_stored total_fetched) as [q Hq];
      [lia | exact Hstored |].
    rewrite Hq. cbn [obind py_mul]. rewrite float_of_int_100. cbn [obind].
    eexists. split; [reflexivity|]. split; [|lia].
    intros _. exists q. split; reflexivity.
  - eexists. split; [reflexivity|]. split; [lia | reflexivity].
Qed.

Lemma get_execution_summary_returns (E : collaborators)
    (total_fetched total_processed total_stored : Z) (errors : list pystr)
    (start_time : timestamp) (w : world) :
  Z.abs total_stored < 2 ^ 1000 ->
  exists rate,
    success_rate_of total_stored total_fetched = Return rate /\
    get_execution_summary E total_fetched total_processed total_stored errors
      start_time w
    = (Return {| Summary.execution_time := clock E (clock_reads w) - start_time;
                 Summary.start_time := start_time;
                 Summary.end_time := clock E (clock_reads w);
                 Summary.items_fetched := total_fetched;
                 Summary.items_processed := total_processed;
                 Summary.items_stored := total_stored;
                 Summary.success_rate := rate;
                 Summary.errors_count := Z.of_nat (List.length errors);
                 Summary.errors := firstn 10 errors;
                 Summary.status := status_of total_stored errors |},
       tick w).
Proof.
  intros Hstored.
  destruct (success_rate_of_returns total_stored total_fetched Hstored)
    as (rate & Hrate & _).
  exists rate. split; [exact Hrate|].
  unfold get_execution_summary, bind, utcnow, lift, ret. rewrite Hrate.
  reflexivity.
Qed.

Lemma status_of_cases total_stored errors :
  (status_of total_stored errors = str "success"
     <-> 0 < total_stored /\ errors = []) /\
  (status_of total_stored errors = str "partial"
     <-> 0 < total_stored /\ errors <> []) /\
  (status_of total_stored errors = str "failed" <-> total_stored <= 0).
Proof.
  unfold status_of.
  destruct (Z.ltb_spec 0 total_stored) as [Hpos|Hneg];
    destruct errors as [|msg errors]; cbn [List.length Z.of_nat Z.eqb andb];
    repeat split;
    try (intros H; vm_compute in H; discriminate H);
    try (intros [H1 H2]; first [lia | congruence]);
    try reflexivity; try lia; try discriminate.
Qed.

Lemma initialize_firestore_healthy (E : collaborators) (w : world) :
  client_failure E = None -> health_set_failure E = None ->
  health_get E = Return true ->
  Main.initialize_firestore E w = (Return tt, w).
Proof.
  intros Hclient Hset Hget.
  unfold Main.initialize_firestore, check_firestore_health, try_except, bind, lift, ret.
  rewrite Hclient, Hset, Hget. reflexivity.
Qed.

(** From the end of the fetch on, a run in which nothing fails: the summary
    is built from the number of fetched items, the documents of
    [process_data] and the count of the batch writer, with the list [errors]
    of [main], which is empty. *)
Lemma main_after_fetch (cfg : Config.t) (E : collaborators) (w w1 w2 w3 : world)
    (raw_data : value) (total_fetched : Z) (processed_data : list Doc.t)
    (stored_count : Z) :
  Config.PROJECT_ID cfg <> [] ->
  client_failure E = None -> health_set_failure E = None ->
  health_get E = Return true ->
  Main.fetch_data_from_api cfg E (tick w) = (Return raw_data, w1) ->
  Main.process_data E raw_data w1 = (Return processed_data, w2) ->
  Main.store_data_in_firestore cfg E processed_data w2 = (Return stored_count, w3) ->
  py_len raw_data = Return total_fetched ->
  Z.abs stored_count < 2 ^ 1000 ->
  exists rate,
    success_rate_of stored_count total_fetched = Return rate /\
    Main.main cfg E w
    = (Return
         (Main.Completed
            {| Summary.execution_time :=
                 clock E (clock_reads w3) - clock E (clock_reads w);
               Summary.start_time := clock E (clock_reads w);
               Summary.end_time := clock E (clock_reads w3);
               Summary.items_fetched := total_fetched;
               Summary.items_processed := Z.of_nat (List.length processed_data);
               Summary.items_stored := stored_count;
               Summary.success_rate := rate;
               Summary.errors_count := 0;
               Summary.errors := [];
               Summary.status := status_of stored_count [] |},
          200),
       tick w3).
Proof.
  intros Hproj Hclient Hset Hget Hfetch Hprocess Hstore Hlen Hbound.
  destruct (get_execution_summary_returns E total_fetched
              (Z.of_nat (List.length processed_data)) stored_count []
              (clock E (clock_reads w)) w3 Hbound) as (rate & Hrate & Hsummary).
  exists rate. split; [exact Hrate|].
  unfold Main.main.
  rewrite (bind_return _ _ w (clock E (clock_reads w)) (tick w)) by reflexivity.
  apply try_except_return.
  assert (Hvalidate : Config.validate cfg = Return true).
  { unfold Config.validate. destruct (Config.PROJECT_ID cfg); congruence. }
  rewrite (bind_return _ _ (tick w) true (tick w))
    by (unfold lift; rewrite Hvalidate; reflexivity).
  rewrite (bind_return _ _ (tick w) tt (tick w))
    by (apply initialize_firestore_healthy; assumption).
  rewrite (bind_return _ _ _ _ _ Hfetch).
  rewrite (bind_return _ _ _ _ _ Hprocess).
  rewrite (bind_return _ _ _ _ _ Hstore).
  rewrite (bind_return _ _ w3 total_fetched w3)
    by (unfold lift; rewrite Hlen; reflexivity).
  rewrite (bind_return _ _ _ _ _ Hsummary).
  reflexivity.
Qed.

(** Claim C6: for all counts and every error list (the stored count being a
    count of items, so from 0 to below [2^63]) the execution summary has
    [success_rate] equal to the float [stored / fetched] times 100.0 when
    [fetched > 0] and to 0 otherwise; its status is ['success'] exactly when
    [stored > 0] and there is no error, ['partial'] exactly when [stored > 0]
    and there is an error, ['failed'] exactly when [stored = 0].  A run that
    fetches no record ends with all counts zero, [success_rate = 0] and the
    status ['failed']. *)
Theorem get_execution_summary_rate_and_status :
  (forall (E : collaborators) (total_fetched total_processed total_stored : Z)
          (errors : list pystr) (start_time : timestamp) (w : world),
     0 <= total_stored < max_count ->
     exists summary,
       get_execution_summary E total_fetched total_processed total_stored
         errors start_time w = (Return summary, tick w) /\
       Summary.items_fetched summary = total_fetched /\
       Summary.items_processed summary = total_processed /\
       Summary.items_stored summary = total_stored /\
       (0 < total_fetched ->
          exists q, int_truediv total_stored total_fetched = Return q /\
                    Summary.success_rate summary = PFloat (f64_mul q hundred)) /\
       (total_fetched = 0 -> Summary.success_rate summary = PInt 0) /\
       (Summary.status summary = str "success"
          <-> 0 < total_stored /\ errors = []) /\
       (Summary.status summary = str "partial"
          <-> 0 < total_stored /\ errors <> []) /\
       (Summary.status summary = str "failed" <-> total_stored = 0)) /\
  (forall (cfg : Config.t) (E : collaborators) (w w1 : world),
     Config.PROJECT_ID cfg <> [] ->
     client_failure E = None -> health_set_failure E = None ->
     health_get E = Return true ->
     Main.fetch_data_from_api cfg E (tick w) = (Return (VList []), w1) ->
     exists summary,
       Main.main cfg E w = (Return (Main.Completed summary, 200), tick w1) /\
       Summary.items_fetched summary = 0 /\
       Summary.items_processed summary = 0 /\
       Summary.items_stored summary = 0 /\
       Summary.success_rate summary = PInt 0 /\
       Summary.errors_count summary = 0 /\
       Summary.status summary = str "failed").
Proof.
  split.
  - intros E total_fetched total_processed total_stored errors start_time w Hstored.
    assert (Hbound : Z.abs total_stored < 2 ^ 1000).
    { unfold max_count in Hstored.
      assert (Hpow : 2 ^ 63 < 2 ^ 1000) by (apply Z.pow_lt_mono_r; lia). lia. }
    destruct (get_execution_summary_returns E total_fetched total_processed
                total_stored errors start_time w Hbound)
      as (rate & Hrate & Hsummary).
    destruct (success_rate_of_returns total_stored total_fetched Hbound)
      as (rate' & Hrate' & Hpos & Hzero).
    rewrite Hrate in Hrate'. injection Hrate' as <-.
    destruct (status_of_cases total_stored errors) as (Hs & Hp & Hf).
    eexists. split; [exact Hsummary|].
    cbn [Summary.items_fetched Summary.items_processed Summary.items_stored
         Summary.success_rate Summary.status].
    do 3 (split; [reflexivity|]).
    split; [exact Hpos|].
    split; [intros ->; apply Hzero; lia|].
    split; [exact Hs|]. split; [exact Hp|].
    split.
    + intros Hfailed. apply Hf in Hfailed. lia.
    + intros ->. apply Hf. lia.
  - intros cfg E w w1 Hproj Hclient Hset Hget Hfetch.
    destruct (main_after_fetch cfg E w w1 w1 w1 (VList []) 0 [] 0)
      as (rate & Hrate & Hmain); try assumption; try reflexivity.
    injection Hrate as <-.
    eexists. split; [exact Hmain|]. cbn. repeat split.
Qed.

(** A summary of 25 fetched and 7 stored items without error: the rate is
    the float 28.000000000000004 and the status ['success'].  A run of the
    pipeline whose request is answered by an empty list: all counts are zero
    and the status is ['failed']. *)
Lemma get_execution_summary_rate_and_status_at_7_of_25 :
  (exists summary,
     get_execution_summary (Samples.serving VNone) 25 10 7 [] 0 Env.initial
       = (Return summary, tick Env.initial) /\
     Summary.success_rate summary
       = PFloat (S754_finite false 7881299347898369 (-48)) /\
     Summary.status summary = str "success") /\
  (exists summary w,
     Main.main Samples.demo (Samples.serving (VList [])) Env.initial
       = (Return (Main.Completed summary, 200), w) /\
     Summary.items_fetched summary = 0 /\
     Summary.items_stored summary = 0 /\
     Summary.success_rate summary = PInt 0 /\
     Summary.status summary = str "failed").
Proof.
  destruct get_execution_summary_rate_and_status as [Hsummary Hrun].
  split.
  - destruct (Hsummary (Samples.serving VNone) 25 10 7 [] 0 Env.initial)
      as (summary & Hs & _ & _ & _ & Hrate & _ & Hsuccess & _).
    { unfold max_count. split; [lia | reflexivity]. }
    exists summary. split; [exact Hs|]. split.
    + destruct (Hrate ltac:(lia)) as (q & Hq & ->).
      vm_compute in Hq. injection Hq as <-. vm_compute. reflexivity.
    + apply Hsuccess. split; [lia | reflexivity].
  - assert (Hfetch : exists w1,
               Main.fetch_data_from_api Samples.demo (Samples.serving (VList []))
                 (tick Env.initial) = (Return (VList []), w1))
      by (eexists; vm_compute; reflexivity).
    destruct Hfetch as [w1 Hfetch].
    destruct (Hrun Samples.demo (Samples.serving (VList [])) Env.initial w1)
      as (summary & Hmain & Hf & _ & Hst & Hrate & _ & Hstatus);
      try reflexivity; try exact Hfetch.
    { vm_compute. discriminate. }
    exists summary, (tick w1). repeat split; assumption.
Defined.

(** Claim C9: for every error list the [errors] field of the execution
    summary holds the first [min 10 (length errors)] entries of the list, and
    the [errors_count] field the length of the whole list. *)
Theorem get_execution_summary_errors (E : collaborators)
    (total_fetched total_processed total_stored : Z) (errors : list pystr)
    (start_time : timestamp) (w : world) :
  0 <= total_stored < max_count ->
  exists summary,
    get_execution_summary E total_fetched total_processed total_stored errors
      start_time w = (Return summary, tick w) /\
    Summary.errors summary = firstn (Nat.min 10 (List.length errors)) errors /\
    List.length (Summary.errors summary) = Nat.min 10 (List.length errors) /\
    Summary.errors_count summary = Z.of_nat (List.length errors).
Proof.
  intros Hstored.
  assert (Hbound : Z.abs total_stored < 2 ^ 1000).
  { unfold max_count in Hstored.
    assert (Hpow : 2 ^ 63 < 2 ^ 1000) by (apply Z.pow_lt_mono_r; lia). lia. }
  destruct (get_execution_summary_returns E total_fetched total_processed
              total_stored errors start_time w Hbound)
    as (rate & _ & Hsummary).
  eexists. split; [exact Hsummary|].
  cbn [Summary.errors Summary.errors_count].
  split; [|split; [apply length_firstn | reflexivity]].
  rewrite <- firstn_firstn, firstn_all. reflexivity.
Qed.

(** With twelve errors the summary shows ten strings and counts twelve. *)
Lemma get_execution_summary_errors_at_12 :
  exists summary,
    get_execution_summary (Samples.serving VNone) 25 10 7
      (Samples.error_strings 12) 0 Env.initial
      = (Return summary, tick Env.initial) /\
    Summary.errors summary = Samples.error_strings 10 /\
    List.length (Summary.errors summary) = 10%nat /\
    Summary.errors_count summary = 12.
Proof.
  destruct (get_execution_summary_errors (Samples.serving VNone) 25 10 7
              (Samples.error_strings 12) 0 Env.initial)
    as (summary & Hs & Herrors & Hlen & Hcount).
  { unfold max_count. split; [lia | reflexivity]. }
  exists summary. split; [exact Hs|].
  rewrite Hlen, Hcount, Herrors. vm_compute. repeat split; reflexivity.
Defined.

End SummaryFacts.

(** ** The orchestrator: validation and transformation *)

Module ProcessFacts.

Import Utils Spec EnvFacts.

(** What the validator raises, on a value that is no dict, is caught by
    [except Exception]. *)
Lemma validate_raises_exception item e :
  validate_post_data item = Raise e -> catches [Exception] e = true.
Proof.
  unfold validate_post_data.
  destruct item;
    try (cbn; intros H; injection H as <-; reflexivity).
  - unfold validate_post_data_log, required_fields, check_required.
    cbn [py_in obind py_get].
    repeat match goal with
           | |- context [negb ?b] => destruct b; cbn [negb obind]
           end;
      try discriminate; intros H; injection H as <-; reflexivity.
  - unfold validate_post_data_log, required_fields, check_required.
    cbn [py_in obind py_get].
    repeat match goal with
           | |- context [negb ?b] => destruct b; cbn [negb obind]
           end;
      try discriminate; intros H; injection H as <-; reflexivity.
  - rewrite ValidatorFacts.validate_post_data_log_dict. cbn [obind].
    discriminate.
Qed.

Section Loop.
Variable E : collaborators.

Lemma ticks_0 w : ticks 0 w = w.
Proof. destruct w; reflexivity. Qed.

Lemma ticks_tick n w : ticks n (tick w) = ticks (S n) w.
Proof. unfold ticks, tick. cbn. f_equal. lia. Qed.

(** One round of the loop: an accepted record adds its transform to
    [processed_items], any other adds one string to [errors]. *)
Lemma process_item_cases idx item processed_items errors w :
  (accepted item = true /\
   exists doc,
     transform_post_data E item w = (Return doc, tick w) /\
     Main.process_item E idx item (processed_items, errors) w
     = (Return (processed_items ++ [doc], errors), tick w)) \/
  (accepted item = false /\
   exists msg,
     Main.process_item E idx item (processed_items, errors) w
     = (Return (processed_items, errors ++ [msg]), w)).
Proof.
  unfold accepted, Main.process_item, try_except, bind, lift, ret.
  destruct (validate_post_data item) as [[|]|e] eqn:Hvalid.
  - left. split; [reflexivity|].
    destruct (ValidatorFacts.valid_record_shape item Hvalid)
      as (d & u & i & t & b & -> & Eu & Ei & Et & Eb).
    pose proof (TransformerFacts.transform_post_data_dict E d u i t b w
                  Eu Ei Et Eb) as Hdoc.
    eexists. split; [exact Hdoc|].
    cbn [negb]. rewrite Hdoc. reflexivity.
  - right. split; [reflexivity|]. eexists. reflexivity.
  - right. split; [reflexivity|].
    rewrite (validate_raises_exception item e Hvalid).
    eexists. reflexivity.
Qed.

Lemma process_items_spec items : forall idx processed_items errors w,
  exists docs msgs,
    Main.process_items E items idx (processed_items, errors) w
    = (Return (processed_items ++ docs, errors ++ msgs),
       ticks (List.length docs) w) /\
    Forall2 (transform_of E) (filter accepted items) docs /\
    List.length msgs = List.length (filter rejected items).
Proof.
  induction items as [|item items IH]; intros idx processed_items errors w.
  - exists [], []. cbn. rewrite !app_nil_r, ticks_0.
    repeat split. constructor.
  - cbn [Main.process_items filter]. unfold rejected at 1.
    destruct (process_item_cases idx item processed_items errors w)
      as [(Hacc & doc & Hdoc & Hstep) | (Hacc & msg & Hstep)];
      rewrite Hacc; cbn [negb];
      rewrite (bind_return _ _ _ _ _ Hstep).
    + destruct (IH (idx + 1) (processed_items ++ [doc]) errors (tick w))
        as (docs & msgs & Hrest & Hdocs & Hmsgs).
      exists (doc :: docs), msgs. rewrite Hrest.
      rewrite <- app_assoc. cbn [app List.length]. rewrite ticks_tick.
      repeat split; [|exact Hmsgs].
      constructor; [|exact Hdocs]. exists w, (tick w). exact Hdoc.
    + destruct (IH (idx + 1) processed_items (errors ++ [msg]) w)
        as (docs & msgs & Hrest & Hdocs & Hmsgs).
      exists docs, (msg :: msgs). rewrite Hrest.
      rewrite <- app_assoc. cbn [app List.length].
      repeat split; [exact Hdocs | now rewrite Hmsgs].
Qed.
End Loop.

(** Claim C8: of every sequence of fetched records only the first
    [MAX_ITEMS_TO_PROCESS] enter validation and transformation, in their
    order; what lies beyond is ignored and leaves no error entry; the output
    list holds exactly the transforms of the accepted records among those
    first ones, in their order. *)
Theorem process_data_first_items (E : collaborators) (raw_data : list value)
    (w : world) :
  let kept := firstn (Z.to_nat Config.MAX_ITEMS_TO_PROCESS) raw_data in
  Main.process_data_locals E (VList raw_data) w
    = Main.process_data_locals E (VList kept) w /\
  exists docs errors,
    Main.process_data_locals E (VList raw_data) w
      = (Return (docs, errors), ticks (List.length docs) w) /\
    Main.process_data E (VList raw_data) w
      = (Return docs, ticks (List.length docs) w) /\
    Forall2 (transform_of E) (filter accepted kept) docs /\
    List.length errors = List.length (filter rejected kept) /\
    (List.length docs + List.length errors <= 10)%nat.
Proof.
  intros kept.
  assert (Hsame : py_take (VList kept) Config.MAX_ITEMS_TO_PROCESS
                  = py_take (VList raw_data) Config.MAX_ITEMS_TO_PROCESS).
  { unfold kept. cbn [py_take]. rewrite firstn_firstn, Nat.min_id. reflexivity. }
  split.
  - unfold Main.process_data_locals. rewrite Hsame. reflexivity.
  - destruct (process_items_spec E kept 1 [] [] w)
      as (docs & msgs & Hrun & Hdocs & Hmsgs).
    cbn [app] in Hrun.
    assert (Hlocals : Main.process_data_locals E (VList raw_data) w
                      = (Return (docs, msgs), ticks (List.length docs) w)).
    { unfold Main.process_data_locals.
      rewrite (bind_return _ _ w kept w) by reflexivity. exact Hrun. }
    exists docs, msgs. split; [exact Hlocals|].
    split; [unfold Main.process_data; now rewrite (bind_return _ _ _ _ _ Hlocals)|].
    split; [exact Hdocs|]. split; [exact Hmsgs|].
    rewrite Hmsgs, <- (Forall2_length Hdocs).
    assert (Hsplit : (List.length (filter accepted kept)
                      + List.length (filter rejected kept)
                      = List.length kept)%nat).
    { clear. induction kept as [|x l IH]; [reflexivity|].
      cbn [filter]. unfold rejected at 1.
      destruct (accepted x); cbn [negb List.length]; lia. }
    assert (Hkept : (List.length kept <= 10)%nat).
    { unfold kept. rewrite length_firstn.
      change (Z.to_nat Config.MAX_ITEMS_TO_PROCESS) with 10%nat. lia. }
    lia.
Qed.

Lemma get_execution_summary_fields (E : collaborators)
    (total_fetched total_processed total_stored : Z) (errors : list pystr)
    (start_time : timestamp) (w w' : world) (summary : Summary.t) :
  get_execution_summary E total_fetched total_processed total_stored errors
    start_time w = (Return summary, w') ->
  Summary.items_fetched summary = total_fetched /\
  Summary.items_processed summary = total_processed /\
  Summary.items_stored summary = total_stored /\
  Summary.errors summary = firstn 10 errors /\
  Summary.errors_count summary = Z.of_nat (List.length errors) /\
  Summary.status summary = status_of total_stored errors.
Proof.
  unfold get_execution_summary, bind, utcnow, lift, ret.
  destruct (success_rate_of total_stored total_fetched); [|discriminate].
  intros H. injection H as <- _. repeat split.
Qed.

(** The list [errors] that [main] hands to the summary is the empty list it
    starts with: whatever the records, a completed run reports no error and
    is never ['partial']. *)
Lemma main_reports_no_error (cfg : Config.t) (E : collaborators) (w w' : world)
    (summary : Summary.t) (code : Z) :
  Main.main cfg E w = (Return (Main.Completed summary, code), w') ->
  Summary.errors summary = [] /\
  Summary.errors_count summary = 0 /\
  Summary.status summary <> str "partial".
Proof.
  unfold Main.main. intros Hmain.
  apply bind_inv in Hmain. destruct Hmain as (start_time & w0 & _ & Hmain).
  unfold try_except in Hmain.
  match type of Hmain with
  | context [match ?body w0 with _ => _ end] =>
      destruct (body w0) as [[result|e] w1] eqn:Hbody
  end.
  - injection Hmain as -> ->.
    do 6 (apply bind_inv in Hbody; destruct Hbody as (? & ? & _ & Hbody)).
    apply bind_inv in Hbody. destruct Hbody as (s & w2 & Hsummary & Hret).
    injection Hret as -> _.
    apply get_execution_summary_fields in Hsummary.
    destruct Hsummary as (_ & _ & _ & Herrors & Hcount & Hstatus).
    split; [exact Herrors|]. split; [exact Hcount|].
    rewrite Hstatus. unfold status_of. cbn [List.length Z.of_nat Z.eqb andb].
    destruct (0 <? _); cbn [andb]; intros Hpartial; vm_compute in Hpartial;
      discriminate Hpartial.
  - destruct (catches [Exception] e); [|discriminate].
    unfold bind, utcnow, ret in Hmain. discriminate.
Qed.

(** Claim C1 on the run of the specification: twenty-five records are
    fetched and three of the first ten are invalid.  [process_data] holds the
    three error strings when it returns, but the summary of [main] shows
    seven stored documents, no error and the status ['success']. *)
Lemma main_drops_record_errors :
  (exists docs w,
     Main.process_data_locals Samples.feed Samples.fetched_25 Env.initial
       = (Return (docs,
                  [str "Item 2: Validation failed";
                   str "Item 5: Validation failed";
                   str "Item 9: Validation failed"]), w) /\
     List.length docs = 7%nat) /\
  (exists summary w,
     Main.main Samples.demo Samples.feed Env.initial
       = (Return (Main.Completed summary, 200), w) /\
     Summary.items_fetched summary = 25 /\
     Summary.items_processed summary = 7 /\
     Summary.items_stored summary = 7 /\
     Summary.errors_count summary = 0 /\
     Summary.errors summary = [] /\
     Summary.status summary = str "success").
Proof.
  split.
  - eexists _, _. split; [vm_compute; reflexivity | reflexivity].
  - eexists _, _. split; [vm_compute; reflexivity|].
    vm_compute. repeat split; reflexivity.
Qed.

End ProcessFacts.

(** ** The orchestrator: fetching *)

Module FetchFacts.

Import Utils Spec ExecutorFacts.

Section Exhaustion.
Context {A State : Type}.
Variable sleep : pynum -> outcome unit.
Variable func : State -> outcome A * State.
Variable max_attempts : Z.
Variable backoff_factor : pynum.
Variable exceptions : list exn_class.

(** The function fails at every call, with an exception of the retryable
    classes. *)
Hypothesis always_fails :
  forall s, exists e s', func s = (Raise e, s') /\ catches exceptions e = true.

(** When every call fails retryably and the waits of the schedule are
    accepted, the loop makes all the attempts left to it, waits between them
    and then raises the failure of the last call. *)
Lemma retry_loop_exhausts (n : nat) : forall attempt delay last_exception s,
  Z.of_nat (S n) = max_attempts + 1 - attempt ->
  (forall k, (k < n)%nat ->
     exists d d', delay_after k delay backoff_factor = Return d /\
                  sleep d = Return tt /\
                  py_mul d backoff_factor = Return d') ->
  exists e s_last s' tr,
    retry_loop sleep func max_attempts backoff_factor exceptions
      (range attempt (max_attempts + 1)) delay last_exception s
    = (Raise e, s', tr) /\
    func s_last = (Raise e, s') /\
    attempts_of tr = S n /\
    List.length (waits_of tr) = n.
Proof.
  induction n as [|n IH]; intros attempt delay last_exception s Hn Hwaits;
    rewrite range_cons by lia; cbn [retry_loop];
    destruct (always_fails s) as (e & s' & Hcall & Hcatch);
    rewrite Hcall, Hcatch.
  - destruct (Z.ltb_spec attempt max_attempts) as [|_]; [lia|].
    rewrite range_empty by lia. cbn [retry_loop raise_object after app].
    exists e, s, s', [Attempt attempt]. repeat split. exact Hcall.
  - destruct (Z.ltb_spec attempt max_attempts) as [_|]; [|lia].
    destruct (Hwaits O ltac:(lia)) as (d & d' & Hd & Hsleep & Hmul).
    cbn [delay_after] in Hd. injection Hd as <-.
    rewrite Hsleep, Hmul.
    destruct (IH (attempt + 1) d' (Some e) s') as (e' & s_last & s'' & tr & Hrun & Hlast & Hatt & Hwait).
    { lia. }
    { intros k Hk. destruct (Hwaits (S k) ltac:(lia)) as (dk & dk' & Hdk & Hrest).
      cbn [delay_after] in Hdk. rewrite Hmul in Hdk. cbn [obind] in Hdk.
      exists dk, dk'. split; assumption. }
    rewrite Hrun. cbn [after app].
    exists e', s_last, s'', (Attempt attempt :: Wait delay :: tr).
    split; [reflexivity|]. split; [exact Hlast|].
    unfold attempts_of in *. cbn [filter is_attempt List.length waits_of].
    split; [now rewrite Hatt | now rewrite Hwait].
Qed.
End Exhaustion.

(** What [handle_rate_limit] raises is of the retryable classes. *)
Lemma handle_rate_limit_retryable status_code retry_after e :
  handle_rate_limit status_code retry_after = Raise e ->
  catches Main.fetch_exceptions e = true.
Proof.
  unfold handle_rate_limit, raise_for_status.
  destruct (status_code =? 429).
  - intros H. injection H as <-. reflexivity.
  - destruct ((400 <=? status_code) && (status_code <? 500)).
    + intros H. injection H as <-. reflexivity.
    + destruct ((500 <=? status_code) && (status_code <? 600)); [|discriminate].
      intros H. injection H as <-. reflexivity.
Qed.

(** Every exception [make_request] raises is an instance of [Exception], so
    the tuple [(RequestException, Exception)] catches it. *)
Lemma make_request_retryable (E : collaborators) (w w' : world) (e : exn) :
  Main.make_request E w = (Raise e, w') ->
  catches Main.fetch_exceptions e = true.
Proof.
  unfold Main.make_request, requests_get.
  destruct (http E (requests_sent w)) as [status_code retry_after json|why text].
  - destruct (handle_rate_limit status_code retry_after) as [[]|e0] eqn:Hrate;
      cbn [obind].
    + destruct json; intros H; [discriminate|].
      injection H as <- _. reflexivity.
    + intros H. injection H as <- _.
      exact (handle_rate_limit_retryable _ _ _ Hrate).
  - intros H. injection H as <- _. destruct why; reflexivity.
Qed.

(** Claim C10, as stated, fails when the configured retry delay is negative:
    the API answers 503 to every request and three attempts are allowed, the
    failure of the first request is caught as retryable, but the wait that
    follows is refused by [time.sleep] and its [ValueError] ends the fetch
    after one attempt. *)
Lemma fetch_negative_delay_not_retried :
  Config.API_RETRY_MAX_ATTEMPTS Samples.hasty = 3 /\
  (exists e w, Main.make_request Samples.down Env.initial = (Raise e, w) /\
               catches Main.fetch_exceptions e = true) /\
  exists w,
    Main.fetch_data_from_api_events Samples.hasty Samples.down Env.initial
    = (Raise (mk_exn ValueError (str "sleep length must be non-negative")),
       w, [Attempt 1]) /\
    requests_sent w = 1%nat.
Proof.
  split; [reflexivity|]. split.
  - eexists _, _. split; vm_compute; reflexivity.
  - eexists. split; vm_compute; reflexivity.
Qed.

(** Claim C10, amended: every exception raised by the request wrapper of the
    fetch stage, those of [handle_rate_limit] for a rate limit or an error
    status included, is caught as retryable, because the tuple handed to the
    executor holds [Exception]; so no failure of a request leaves the fetch
    by the non-retryable path, and, provided the waits of the backoff
    schedule are accepted by [time.sleep] and its delays can be computed,
    requests that all fail are retried until the attempt cap is exhausted. *)
Theorem fetch_retries_every_failure (cfg : Config.t) (E : collaborators) :
  (forall w e w',
     Main.make_request E w = (Raise e, w') ->
     issubclass (exn_class_of e) Exception = true /\
     catches Main.fetch_exceptions e = true) /\
  (forall status_code retry_after e,
     handle_rate_limit status_code retry_after = Raise e ->
     catches Main.fetch_exceptions e = true) /\
  (forall w,
     1 <= Config.API_RETRY_MAX_ATTEMPTS cfg ->
     (forall w0, exists e w0', Main.make_request E w0 = (Raise e, w0')) ->
     (forall k, Z.of_nat k < Config.API_RETRY_MAX_ATTEMPTS cfg - 1 ->
        exists d d',
          delay_after k (PInt (Config.API_RETRY_DELAY cfg))
            Config.API_RETRY_BACKOFF = Return d /\
          sleep E d = Return tt /\
          py_mul d Config.API_RETRY_BACKOFF = Return d') ->
     exists e w_last w' tr,
       Main.fetch_data_from_api_events cfg E w = (Raise e, w', tr) /\
       Main.make_request E w_last = (Raise e, w') /\
       Z.of_nat (attempts_of tr) = Config.API_RETRY_MAX_ATTEMPTS cfg /\
       Z.of_nat (List.length (waits_of tr)) = Config.API_RETRY_MAX_ATTEMPTS cfg - 1).
Proof.
  split; [|split].
  - intros w e w' Hraise.
    pose proof (make_request_retryable E w w' e Hraise) as Hcatch.
    split; [|exact Hcatch].
    unfold catches, Main.fetch_exceptions in Hcatch. cbn [existsb] in Hcatch.
    destruct (exn_class_of e); try reflexivity; discriminate Hcatch.
  - exact handle_rate_limit_retryable.
  - intros w Hmax Hfail Hwaits.
    set (n := Z.to_nat (Config.API_RETRY_MAX_ATTEMPTS cfg - 1)).
    destruct (retry_loop_exhausts (sleep E) (Main.make_request E)
                (Config.API_RETRY_MAX_ATTEMPTS cfg) Config.API_RETRY_BACKOFF
                Main.fetch_exceptions) with
        (n := n) (attempt := 1) (delay := PInt (Config.API_RETRY_DELAY cfg))
        (last_exception := @None exn) (s := w)
      as (e & w_last & w' & tr & Hrun & Hlast & Hatt & Hwait).
    + intros w0. destruct (Hfail w0) as (e & w0' & Hcall).
      exists e, w0'. split; [exact Hcall|].
      exact (make_request_retryable E w0 w0' e Hcall).
    + unfold n. lia.
    + intros k Hk. apply Hwaits. unfold n in Hk. lia.
    + exists e, w_last, w', tr.
      unfold Main.fetch_data_from_api_events, retry_with_backoff.
      rewrite Hrun. cbn [obind].
      split; [reflexivity|]. split; [exact Hlast|].
      rewrite Hatt, Hwait. unfold n. lia.
Qed.

(** The default schedule, three attempts with waits of 2 and 4.0 seconds,
    against an API that answers 503 to every request. *)
Lemma fetch_retries_every_failure_at_503 :
  exists e w tr,
    Main.fetch_data_from_api_events Samples.demo Samples.down Env.initial
      = (Raise e, w, tr) /\
    exn_class_of e = HTTPError /\
    attempts_of tr = 3%nat /\
    waits_of tr = [PInt 2; Samples.four].
Proof.
  destruct (fetch_retries_every_failure Samples.demo Samples.down)
    as (_ & _ & Hexhaust).
  destruct (Hexhaust Env.initial) as (e & w_last & w & tr & Hrun & _ & _ & _).
  - cbn. lia.
  - intros w0. eexists _, _. reflexivity.
  - intros [|[|k]] Hk.
    + eexists _, _. repeat split; vm_compute; reflexivity.
    + eexists _, _. repeat split; vm_compute; reflexivity.
    + cbn in Hk. lia.
  - exists e, w, tr. split; [exact Hrun|].
    vm_compute in Hrun. injection Hrun as <- _ <-.
    repeat split; reflexivity.
Defined.

End FetchFacts.

(** * Further properties *)

(** ** Trimming and splitting *)

Module TrimFacts.

Import Terms.

Lemma lstrip_head s c t : lstrip s = c :: t -> isspace c = false.
Proof.
  induction s as [|a s IH]; simpl; [discriminate|].
  destruct (isspace a) eqn:Ha; [exact IH|].
  intros H; injection H as <- _; exact Ha.
Qed.

Lemma lstrip_fixed c t : isspace c = false -> lstrip (c :: t) = c :: t.
Proof. intros Hc. simpl. now rewrite Hc. Qed.

Lemma lstrip_snoc s c : isspace c = false -> lstrip (s ++ [c]) = lstrip s ++ [c].
Proof.
  intros Hc. induction s as [|a s IH]; simpl.
  - now rewrite Hc.
  - destruct (isspace a); [exact IH | reflexivity].
Qed.

Lemma rstrip_cons c t : isspace c = false -> rstrip (c :: t) = c :: rstrip t.
Proof.
  intros Hc. unfold rstrip. cbn [rev].
  rewrite lstrip_snoc by exact Hc. rewrite rev_app_distr. reflexivity.
Qed.

(** What [lstrip] removes is white space. *)
Lemma lstrip_prefix s :
  exists spaces, s = spaces ++ lstrip s /\ Forall (fun c => isspace c = true) spaces.
Proof.
  induction s as [|a s (spaces & Hs & Hall)]; simpl.
  - exists []. split; [reflexivity | constructor].
  - destruct (isspace a) eqn:Ha.
    + exists (a :: spaces). split; [simpl; congruence | now constructor].
    + exists []. split; [reflexivity | constructor].
Qed.

(** What [rstrip] removes is white space. *)
Lemma rstrip_suffix s :
  exists spaces, s = rstrip s ++ spaces /\ Forall (fun c => isspace c = true) spaces.
Proof.
  destruct (lstrip_prefix (rev s)) as (spaces & Hs & Hall).
  exists (rev spaces). split.
  - unfold rstrip. rewrite <- rev_app_distr, <- Hs. now rewrite rev_involutive.
  - now apply Forall_rev.
Qed.

(** A trimmed string is empty or starts with a character that is not white
    space. *)
Lemma strip_head s c t : strip s = c :: t -> isspace c = false.
Proof.
  unfold strip. destruct (lstrip s) as [|a l] eqn:Hl; [discriminate|].
  pose proof (lstrip_head s a l Hl) as Ha.
  rewrite rstrip_cons by exact Ha. intros H. injection H as <- _. exact Ha.
Qed.

Lemma lstrip_lstrip s : lstrip (lstrip s) = lstrip s.
Proof.
  destruct (lstrip s) as [|c t] eqn:Hl; [reflexivity|].
  apply lstrip_fixed. exact (lstrip_head s c t Hl).
Qed.

Lemma rstrip_rstrip s : rstrip (rstrip s) = rstrip s.
Proof. unfold rstrip. now rewrite rev_involutive, lstrip_lstrip. Qed.

(** Trimming twice is trimming once. *)
Lemma strip_strip s : strip (strip s) = strip s.
Proof.
  destruct (strip s) as [|c t] eqn:Hs; [reflexivity|].
  unfold strip at 1. rewrite (lstrip_fixed c t (strip_head s c t Hs)).
  rewrite <- Hs. unfold strip. apply rstrip_rstrip.
Qed.

Lemma word_starts_leading spaces s :
  Forall (fun c => isspace c = true) spaces ->
  word_starts true (spaces ++ s) = word_starts true s.
Proof.
  induction 1 as [|c spaces Hc _ IH]; [reflexivity|].
  simpl. rewrite Hc. exact IH.
Qed.

Lemma word_starts_trailing spaces :
  Forall (fun c => isspace c = true) spaces ->
  forall s after_space,
    word_starts after_space (s ++ spaces) = word_starts after_space s.
Proof.
  intros Hall. induction s as [|c s IH]; intros after_space.
  - simpl. revert after_space.
    induction Hall as [|c spaces Hc _ IH]; intros after_space; [reflexivity|].
    simpl. rewrite Hc. simpl. apply IH.
  - simpl. now rewrite IH.
Qed.

(** Trimming a string changes nothing to its words. *)
Lemma token_count_strip s : token_count (strip s) = token_count s.
Proof.
  unfold token_count, strip.
  destruct (lstrip_prefix s) as (leading & Hs & Hleading).
  destruct (rstrip_suffix (lstrip s)) as (trailing & Hl & Htrailing).
  rewrite Hs at 2. rewrite word_starts_leading by exact Hleading.
  rewrite Hl at 2. now rewrite word_starts_trailing.
Qed.

(** A trimmed string that is not empty holds at least one word. *)
Lemma token_count_positive s : strip s <> [] -> (1 <= token_count (strip s))%nat.
Proof.
  intros Hs. destruct (strip s) as [|c t] eqn:Hstrip; [contradiction|].
  unfold token_count. simpl. rewrite (strip_head s c t Hstrip). simpl. lia.
Qed.

End TrimFacts.

(** ** The record transformer on any input *)

Module TransformerExtras.

Import Utils Spec Terms TrimFacts.

(** The transformer either reads the four fields of a dict and returns the
    document, or raises at the first field it cannot read, before it reads
    the clock. *)
Lemma transform_post_data_cases (E : collaborators) (data : value) (w : world) :
  (transformable data = true /\
   exists d u i t b,
     data = VDict d /\
     dict_get (str "userId") d = Some u /\
     dict_get (str "id") d = Some i /\
     dict_get (str "title") d = Some (VStr t) /\
     dict_get (str "body") d = Some (VStr b)) \/
  (transformable data = false /\
   exists e,
     transform_post_data E data w = (Raise e, w) /\
     In (exn_class_of e) [KeyError; AttributeError; TypeError]).
Proof.
  destruct data as [| | | | | |d];
    try (right; split; [reflexivity|]; eexists; split; [reflexivity|];
         cbn; tauto).
  unfold transformable, has_key, lookup.
  unfold transform_post_data, bind, lift, py_getitem.
  destruct (dict_get (str "userId") d) as [u|] eqn:Eu;
    [|right; split; [reflexivity|]; eexists; split; [reflexivity|]; cbn; tauto].
  destruct (dict_get (str "id") d) as [i|] eqn:Ei;
    [|right; split; [reflexivity|]; eexists; split; [reflexivity|]; cbn; tauto].
  destruct (dict_get (str "title") d) as [[| | | |t| |]|] eqn:Et;
    try (right; split; [reflexivity|]; eexists; split; [reflexivity|];
         cbn; tauto).
  destruct (dict_get (str "body") d) as [[| | | |b| |]|] eqn:Eb;
    try (right; split; [reflexivity|]; eexists; split; [reflexivity|];
         cbn; tauto).
  left. split; [reflexivity|]. exists d, u, i, t, b. repeat split; assumption.
Qed.

(** The transformer succeeds exactly on the dicts that hold [userId] and
    [id] and strings under [title] and [body]; on every other value it raises
    a [KeyError], an [AttributeError] or a [TypeError] and leaves the clock
    unread. *)
Theorem transform_post_data_reads (E : collaborators) (data : value) (w : world) :
  if transformable data
  then exists doc, transform_post_data E data w = (Return doc, tick w)
  else exists e,
         transform_post_data E data w = (Raise e, w) /\
         In (exn_class_of e) [KeyError; AttributeError; TypeError].
Proof.
  destruct (transform_post_data_cases E data w)
    as [(-> & d & u & i & t & b & -> & Eu & Ei & Et & Eb) | (-> & Hraise)].
  - eexists. exact (TransformerFacts.transform_post_data_dict E d u i t b w
                      Eu Ei Et Eb).
  - exact Hraise.
Qed.

(** Every document the transformer returns is well formed: its two lengths
    are those of its title and body, its word count is the number of words
    of its body, its title and body carry no white space at either end, its
    constants are those of the source, and the clock was read once. *)
Theorem transform_post_data_document (E : collaborators) (data : value)
    (w w' : world) (doc : Doc.t) :
  transform_post_data E data w = (Return doc, w') ->
  Doc.title_length doc = PyStr.len (Doc.title doc) /\
  Doc.body_length doc = PyStr.len (Doc.body doc) /\
  Doc.word_count doc = Z.of_nat (token_count (Doc.body doc)) /\
  trimmed (Doc.title doc) /\ trimmed (Doc.body doc) /\
  Doc.fetched_at doc = SERVER_TIMESTAMP /\
  Doc.processed_at doc = clock E (clock_reads w) /\
  Doc.source doc = str "jsonplaceholder" /\
  Doc.status doc = str "processed" /\
  w' = tick w.
Proof.
  intros Hdoc.
  destruct (transform_post_data_cases E data w)
    as [(_ & d & u & i & t & b & -> & Eu & Ei & Et & Eb) | (_ & e & Hraise & _)].
  - rewrite (TransformerFacts.transform_post_data_dict E d u i t b w
               Eu Ei Et Eb) in Hdoc.
    injection Hdoc as <- <-. cbn.
    rewrite PyStrFacts.split_length.
    unfold trimmed. rewrite !strip_strip. repeat split.
  - rewrite Hraise in Hdoc. discriminate.
Qed.

Lemma transform_post_data_document_of_post_1 :
  exists doc,
    transform_post_data (Samples.serving VNone) Samples.post_1 Env.initial
      = (Return doc, tick Env.initial) /\
    Doc.title_length doc = PyStr.len (Doc.title doc) /\
    Doc.word_count doc = Z.of_nat (token_count (Doc.body doc)) /\
    trimmed (Doc.title doc).
Proof.
  assert (Hdoc : exists doc,
             transform_post_data (Samples.serving VNone) Samples.post_1
               Env.initial = (Return doc, tick Env.initial))
    by (eexists; vm_compute; reflexivity).
  destruct Hdoc as [doc Hdoc].
  destruct (transform_post_data_document _ _ _ _ _ Hdoc)
    as (Ht & _ & Hw & Htrim & _).
  exists doc. repeat split; assumption.
Defined.

(** The document is read off the four fields: the identifiers are copied as
    they are, whatever their type, the title and the body are trimmed, and
    the word count is that of the body as it came, trimmed or not. *)
Theorem transform_post_data_fields (E : collaborators)
    (d : list (pystr * value)) (w w' : world) (doc : Doc.t) :
  transform_post_data E (VDict d) w = (Return doc, w') ->
  exists t b,
    dict_get (str "title") d = Some (VStr t) /\
    dict_get (str "body") d = Some (VStr b) /\
    dict_get (str "userId") d = Some (Doc.user_id doc) /\
    dict_get (str "id") d = Some (Doc.post_id doc) /\
    Doc.title doc = strip t /\
    Doc.body doc = strip b /\
    Doc.word_count doc = Z.of_nat (token_count b).
Proof.
  intros Hdoc.
  destruct (transform_post_data_cases E (VDict d) w)
    as [(_ & d' & u & i & t & b & Hd & Eu & Ei & Et & Eb) | (_ & e & Hraise & _)].
  - injection Hd as <-.
    rewrite (TransformerFacts.transform_post_data_dict E d u i t b w
               Eu Ei Et Eb) in Hdoc.
    injection Hdoc as <- _. cbn.
    exists t, b. rewrite PyStrFacts.split_length, token_count_strip.
    repeat split; assumption.
  - rewrite Hraise in Hdoc. discriminate.
Qed.

Lemma transform_post_data_fields_of_post_1 :
  exists doc,
    transform_post_data (Samples.serving VNone) (VDict Cases.post_1_fields)
      Env.initial = (Return doc, tick Env.initial) /\
    Doc.user_id doc = VInt 1 /\
    Doc.title doc = str "A" /\
    Doc.word_count doc = Z.of_nat (token_count (str "hello world")).
Proof.
  assert (Hdoc : exists doc,
             transform_post_data (Samples.serving VNone)
               (VDict Cases.post_1_fields) Env.initial
             = (Return doc, tick Env.initial))
    by (eexists; vm_compute; reflexivity).
  destruct Hdoc as [doc Hdoc].
  destruct (transform_post_data_fields _ _ _ _ _ Hdoc)
    as (t & b & Et & Eb & Eu & _ & Htitle & _ & Hwords).
  vm_compute in Et; injection Et as <-.
  vm_compute in Eb; injection Eb as <-.
  vm_compute in Eu; injection Eu as Eu.
  exists doc. split; [exact Hdoc|]. split; [symmetry; exact Eu|].
  split; [rewrite Htitle; vm_compute; reflexivity | exact Hwords].
Defined.

(** A record that passes validation has a title and a body that are not
    blank. *)
Lemma valid_record_nonblank d t b :
  validate_post_data (VDict d) = Return true ->
  dict_get (str "title") d = Some (VStr t) ->
  dict_get (str "body") d = Some (VStr b) ->
  strip t <> [] /\ strip b <> [].
Proof.
  intros Hvalid Et Eb. unfold validate_post_data in Hvalid.
  rewrite ValidatorFacts.validate_post_data_log_dict in Hvalid.
  rewrite Et, Eb in Hvalid. cbn [obind] in Hvalid.
  destruct (find _ required_fields); [discriminate|].
  cbv zeta in Hvalid.
  destruct (negb (isinstance_int _)); [discriminate|].
  destruct (negb (isinstance_int _)); [discriminate|].
  destruct (strip t); [discriminate|].
  destruct (strip b); [discriminate|].
  split; discriminate.
Qed.

(** The document of a record that passed validation has a title and a body
    of at least one character and counts at least one word. *)
Theorem transform_post_data_valid_not_empty (E : collaborators) (data : value)
    (w w' : world) (doc : Doc.t) :
  validate_post_data data = Return true ->
  transform_post_data E data w = (Return doc, w') ->
  1 <= Doc.title_length doc /\ 1 <= Doc.body_length doc /\
  1 <= Doc.word_count doc.
Proof.
  intros Hvalid Hdoc.
  destruct (ValidatorFacts.valid_record_shape data Hvalid)
    as (d & u & i & t & b & -> & Eu & Ei & Et & Eb).
  destruct (valid_record_nonblank d t b Hvalid Et Eb) as [Ht Hb].
  rewrite (TransformerFacts.transform_post_data_dict E d u i t b w
             Eu Ei Et Eb) in Hdoc.
  injection Hdoc as <- _. cbn. unfold PyStr.len.
  rewrite PyStrFacts.split_length.
  pose proof (token_count_positive b Hb).
  destruct (strip t); [contradiction|]. destruct (strip b); [contradiction|].
  cbn [List.length]. lia.
Qed.

Lemma transform_post_data_valid_not_empty_of_post_1 :
  exists doc,
    transform_post_data (Samples.serving VNone) Samples.post_1 Env.initial
      = (Return doc, tick Env.initial) /\
    1 <= Doc.title_length doc /\ 1 <= Doc.body_length doc /\
    1 <= Doc.word_count doc.
Proof.
  assert (Hdoc : exists doc,
             transform_post_data (Samples.serving VNone) Samples.post_1
               Env.initial = (Return doc, tick Env.initial))
    by (eexists; vm_compute; reflexivity).
  destruct Hdoc as [doc Hdoc].
  exists doc. split; [exact Hdoc|].
  apply (transform_post_data_valid_not_empty (Samples.serving VNone)
           Samples.post_1 Env.initial (tick Env.initial) doc);
    [vm_compute; reflexivity | exact Hdoc].
Defined.

End TransformerExtras.

(** ** The record validator on any input *)

Module ValidatorExtras.

Import Utils Spec Terms.

(** On a value that is no dict the validator never answers [True]: a scalar
    makes the membership test raise a [TypeError]; a list or a string is
    searched for the four names and rejected when one is missing, and when
    all four are found the call of [get] raises an [AttributeError]. *)
Theorem validate_post_data_not_a_dict (data : value) :
  match data with
  | VDict _ => True
  | VList l =>
      validate_post_data data =
      if names_in_list l then Raise (no_attribute TList "get") else Return false
  | VStr s =>
      validate_post_data data =
      if names_in_str s then Raise (no_attribute TStr "get") else Return false
  | _ => validate_post_data data = Raise (not_iterable (type_of data))
  end.
Proof.
  destruct data as [| | | |s|l|d]; try reflexivity; try exact I.
  - unfold validate_post_data, validate_post_data_log, names_in_str,
      required_fields.
    cbn [check_required forallb py_in obind].
    repeat match goal with
           | |- context [negb (PyStr.contains s ?k)] =>
               destruct (PyStr.contains s k); cbn [negb andb obind]
           end; reflexivity.
  - unfold validate_post_data, validate_post_data_log, names_in_list,
      required_fields.
    cbn [check_required forallb py_in obind].
    repeat match goal with
           | |- context [negb (existsb ?f l)] =>
               destruct (existsb f l); cbn [negb andb obind]
           end; reflexivity.
Qed.

Lemma dict_get_other k v d f :
  PyStr.eqb f k = false -> dict_get f ((k, v) :: d) = dict_get f d.
Proof. intros H. cbn [dict_get]. now rewrite H. Qed.

(** A field the validator does not ask for changes nothing to its answer,
    nor to the reason it reports. *)
Theorem validate_post_data_other_field (d : list (pystr * value))
    (k : pystr) (v : value) :
  ~ In k required_fields ->
  validate_post_data_log (VDict ((k, v) :: d)) = validate_post_data_log (VDict d).
Proof.
  intros Hk.
  assert (Hother : forall f, In f required_fields -> PyStr.eqb f k = false).
  { intros f Hf. destruct (PyStrFacts.eqb_spec f k) as [->|]; [contradiction|].
    reflexivity. }
  rewrite !ValidatorFacts.validate_post_data_log_dict.
  unfold required_fields, has_key in *. cbn [find].
  rewrite !dict_get_other by (apply Hother; cbn; tauto).
  reflexivity.
Qed.

Lemma validate_post_data_other_field_extra :
  validate_post_data_log (VDict ((str "extra", VNone) :: Cases.post_1_fields))
  = validate_post_data_log (VDict Cases.post_1_fields).
Proof.
  apply validate_post_data_other_field.
  vm_compute. intros [H|[H|[H|[H|[]]]]]; discriminate H.
Defined.

End ValidatorExtras.

(** ** The backoff executor on any run *)

Module ExecutorExtras.

Import Utils Spec ExecutorFacts.

Lemma range_length start stop :
  List.length (range start stop) = Z.to_nat (stop - start).
Proof. unfold range. now rewrite length_map, length_seq. Qed.

(** The schedule of the delays, seen from the second delay on. *)
Lemma schedule_shift delay backoff_factor delay' :
  py_mul delay backoff_factor = Return delay' ->
  forall k start waits,
    Forall2 (fun j d => delay_after j delay' backoff_factor = Return d)
            (seq start k) waits ->
    Forall2 (fun j d => delay_after j delay backoff_factor = Return d)
            (seq (S start) k) waits.
Proof.
  intros Hmul. induction k as [|k IH]; intros start waits Hall;
    inversion Hall; subst; cbn [seq]; constructor.
  - cbn [delay_after]. rewrite Hmul. assumption.
  - apply IH. assumption.
Qed.

Section Runs.
Context {A State : Type}.
Variable sleep : pynum -> outcome unit.
Variable func : State -> outcome A * State.
Variable max_attempts : Z.
Variable backoff_factor : pynum.
Variable exceptions : list exn_class.

(** After [k] retryable failures, each followed by its wait, a call that
    returns, or that raises an exception outside the retryable classes, ends
    the loop with the outcome of that call. *)
Lemma retry_loop_stops (k : nat) :
  forall attempt delay last_exception (states : nat -> State) o s',
    attempt + Z.of_nat k <= max_attempts ->
    (forall j, (j < k)%nat ->
       exists e, func (states j) = (Raise e, states (S j)) /\
                 catches exceptions e = true) ->
    (forall j, (j < k)%nat ->
       exists d d', delay_after j delay backoff_factor = Return d /\
                    sleep d = Return tt /\
                    py_mul d backoff_factor = Return d') ->
    func (states k) = (o, s') ->
    (returns o = true \/ exists e, o = Raise e /\ catches exceptions e = false) ->
    exists tr,
      retry_loop sleep func max_attempts backoff_factor exceptions
        (range attempt (max_attempts + 1)) delay last_exception (states O)
      = (o, s', tr) /\
      attempts_of tr = S k /\
      Forall2 (fun j d => delay_after j delay backoff_factor = Return d)
              (seq 0 k) (waits_of tr).
Proof.
  induction k as [|k IH];
    intros attempt delay last_exception states o s' Hmax Hfail Hwaits Hlast Hstop;
    rewrite range_cons by lia; cbn [retry_loop].
  - rewrite Hlast. exists [Attempt attempt].
    destruct Hstop as [Hret | (e & -> & Hcatch)].
    + destruct o; [|discriminate]. repeat split. constructor.
    + rewrite Hcatch. repeat split. constructor.
  - destruct (Hfail O ltac:(lia)) as (e & Hcall & Hcatch).
    rewrite Hcall, Hcatch.
    destruct (Z.ltb_spec attempt max_attempts) as [_|]; [|lia].
    destruct (Hwaits O ltac:(lia)) as (d & d' & Hd & Hsleep & Hmul).
    cbn [delay_after] in Hd. injection Hd as <-.
    rewrite Hsleep, Hmul.
    destruct (IH (attempt + 1) d' (Some e) (fun j => states (S j)) o s')
      as (tr & Hrun & Hatt & Hsched).
    + lia.
    + intros j Hj. apply (Hfail (S j)). lia.
    + intros j Hj. destruct (Hwaits (S j) ltac:(lia)) as (dj & dj' & Hdj & Hrest).
      cbn [delay_after] in Hdj. rewrite Hmul in Hdj. cbn [obind] in Hdj.
      exists dj, dj'. split; assumption.
    + exact Hlast.
    + exact Hstop.
    + rewrite Hrun. cbn [after app].
      exists (Attempt attempt :: Wait delay :: tr).
      split; [reflexivity|].
      unfold attempts_of in *. cbn [filter is_attempt List.length waits_of seq].
      split; [now rewrite Hatt|].
      constructor; [reflexivity|].
      exact (schedule_shift delay backoff_factor d' Hmul k O (waits_of tr) Hsched).
Qed.

(** Whatever the wrapped function does, the loop calls it at most once for
    each attempt number left, waits at most once after each call, and the
    [j]-th wait lasts the [j]-th delay of the schedule, which [sleep]
    accepted; a run that returns a result made one call more than it
    waited. *)
Lemma retry_loop_bounds (n : nat) :
  forall attempt delay last_exception s,
    Z.to_nat (max_attempts + 1 - attempt) = n ->
    let '(r, _, tr) :=
      retry_loop sleep func max_attempts backoff_factor exceptions
        (range attempt (max_attempts + 1)) delay last_exception s in
    (attempts_of tr <= n)%nat /\
    (List.length (waits_of tr) <= attempts_of tr)%nat /\
    (returns r = true -> attempts_of tr = S (List.length (waits_of tr))) /\
    (forall j d, nth_error (waits_of tr) j = Some d ->
       delay_after j delay backoff_factor = Return d /\ sleep d = Return tt).
Proof.
  assert (Hnone : forall (P : nat -> pynum -> Prop) j d,
             nth_error (@nil pynum) j = Some d -> P j d)
    by (intros P [|j] d Hnth; discriminate Hnth).
  induction n as [|n IH]; intros attempt delay last_exception s Hn.
  - rewrite range_empty by lia. cbn.
    split; [lia|]. split; [lia|]. split; [|apply Hnone].
    unfold raise_object. destruct last_exception; discriminate.
  - rewrite range_cons by lia. cbn [retry_loop].
    destruct (func s) as [[result|e] s1].
    { cbn. split; [lia|]. split; [lia|]. split; [reflexivity | apply Hnone]. }
    destruct (catches exceptions e).
    2:{ cbn. split; [lia|]. split; [lia|]. split; [discriminate | apply Hnone]. }
    destruct (Z.ltb_spec attempt max_attempts) as [Hlt|Hge].
    + destruct (sleep delay) as [[]|e'] eqn:Hsleep.
      2:{ cbn. split; [lia|]. split; [lia|].
          split; [discriminate | apply Hnone]. }
      destruct (py_mul delay backoff_factor) as [delay'|e'] eqn:Hmul.
      * specialize (IH (attempt + 1) delay' (Some e) s1 ltac:(lia)).
        destruct (retry_loop sleep func max_attempts backoff_factor
                    exceptions (range (attempt + 1) (max_attempts + 1))
                    delay' (Some e) s1) as [[r s2] tr].
        destruct IH as (Hatt & Hwait & Hret & Hsched).
        unfold attempts_of in *.
        cbn [after app filter is_attempt List.length waits_of].
        split; [lia|]. split; [lia|]. split.
        -- intros Hr. rewrite (Hret Hr). reflexivity.
        -- intros [|j] d Hnth; cbn [nth_error] in Hnth.
           ++ injection Hnth as <-. split; [reflexivity | exact Hsleep].
           ++ destruct (Hsched j d Hnth) as [Hd Hs].
              split; [|exact Hs]. cbn [delay_after]. rewrite Hmul. exact Hd.
      * cbn. split; [lia|]. split; [lia|]. split; [discriminate|].
        intros [|j] d Hnth; cbn [nth_error] in Hnth.
        -- injection Hnth as <-. split; [reflexivity | exact Hsleep].
        -- destruct j; discriminate Hnth.
    + rewrite range_empty by lia. cbn.
      split; [lia|]. split; [lia|]. split; [discriminate | apply Hnone].
Qed.
End Runs.

(** For every number [k] of retryable failures below [max_attempts]: when
    each is followed by a wait that [time.sleep] accepts and the next call
    returns, the executor returns that result after exactly [k + 1] calls
    and [k] waits, the [j]-th wait lasting the initial delay multiplied [j]
    times by the factor. *)
Theorem retry_with_backoff_returns_after_failures {A State : Type}
    (sleep : pynum -> outcome unit) (func : State -> outcome A * State)
    (max_attempts : Z) (backoff_factor : pynum) (exceptions : list exn_class)
    (initial_delay : pynum) (k : nat) (states : nat -> State)
    (result : A) (s' : State) :
  Z.of_nat k < max_attempts ->
  (forall j, (j < k)%nat ->
     exists e, func (states j) = (Raise e, states (S j)) /\
               catches exceptions e = true) ->
  (forall j, (j < k)%nat ->
     exists d d', delay_after j initial_delay backoff_factor = Return d /\
                  sleep d = Return tt /\
                  py_mul d backoff_factor = Return d') ->
  func (states k) = (Return result, s') ->
  exists tr,
    retry_with_backoff sleep func max_attempts backoff_factor exceptions
      initial_delay (states O) = (Return result, s', tr) /\
    attempts_of tr = S k /\
    Forall2 (fun j d => delay_after j initial_delay backoff_factor = Return d)
            (seq 0 k) (waits_of tr).
Proof.
  intros Hk Hfail Hwaits Hlast. unfold retry_with_backoff.
  apply (retry_loop_stops sleep func max_attempts backoff_factor exceptions k
           1 initial_delay None states (Return result) s');
    try assumption; [lia | left; reflexivity].
Qed.

(** Four failures, then a result, with five attempts allowed and an initial
    delay of one second doubled each time. *)
Lemma retry_with_backoff_returns_after_failures_at_4 :
  exists tr,
    retry_with_backoff time_sleep (Samples.failing_first 4) 5 Samples.two
      [Exception] (PInt 1) O = (Return 42, 5%nat, tr) /\
    attempts_of tr = 5%nat /\
    Forall2 (fun j d => delay_after j (PInt 1) Samples.two = Return d)
            (seq 0 4) (waits_of tr).
Proof.
  apply (retry_with_backoff_returns_after_failures time_sleep
           (Samples.failing_first 4) 5 Samples.two [Exception] (PInt 1)
           4 (fun j => j) 42 5%nat).
  - lia.
  - intros [|[|[|[|j]]]] Hj; try lia; eexists; split; vm_compute; reflexivity.
  - intros [|[|[|[|j]]]] Hj; try lia; eexists _, _;
      repeat split; vm_compute; reflexivity.
  - vm_compute. reflexivity.
Defined.

(** An exception outside the retryable classes ends the executor at once,
    also after [k] retryable failures: it is raised to the caller after
    [k + 1] calls, without a wait after the call that raised it and without
    another attempt, however many are left. *)
Theorem retry_with_backoff_propagates_other_failure {A State : Type}
    (sleep : pynum -> outcome unit) (func : State -> outcome A * State)
    (max_attempts : Z) (backoff_factor : pynum) (exceptions : list exn_class)
    (initial_delay : pynum) (k : nat) (states : nat -> State)
    (e : exn) (s' : State) :
  Z.of_nat k < max_attempts ->
  (forall j, (j < k)%nat ->
     exists e', func (states j) = (Raise e', states (S j)) /\
                catches exceptions e' = true) ->
  (forall j, (j < k)%nat ->
     exists d d', delay_after j initial_delay backoff_factor = Return d /\
                  sleep d = Return tt /\
                  py_mul d backoff_factor = Return d') ->
  func (states k) = (Raise e, s') ->
  catches exceptions e = false ->
  exists tr,
    retry_with_backoff (A := A) sleep func max_attempts backoff_factor
      exceptions initial_delay (states O) = (Raise e, s', tr) /\
    attempts_of tr = S k /\
    List.length (waits_of tr) = k.
Proof.
  intros Hk Hfail Hwaits Hlast Hcatch. unfold retry_with_backoff.
  destruct (retry_loop_stops sleep func max_attempts backoff_factor exceptions
              k 1 initial_delay None states (Raise e) s')
    as (tr & Hrun & Hatt & Hsched);
    try assumption; [lia | right; exists e; split; [reflexivity | assumption] |].
  exists tr. split; [exact Hrun|]. split; [exact Hatt|].
  rewrite <- (Forall2_length Hsched). apply length_seq.
Qed.

(** One connection error, then a [KeyboardInterrupt], which is no
    [Exception]: the executor stops at the second call of three. *)
Lemma retry_with_backoff_propagates_other_failure_at_2 :
  exists tr,
    retry_with_backoff time_sleep (Cases.interrupted_after 1) 3 Samples.two
      [Exception] (PInt 2) O
    = (Raise (mk_exn KeyboardInterrupt (str "")), 2%nat, tr) /\
    attempts_of tr = 2%nat /\
    List.length (waits_of tr) = 1%nat.
Proof.
  apply (retry_with_backoff_propagates_other_failure time_sleep
           (Cases.interrupted_after 1) 3 Samples.two [Exception] (PInt 2)
           1 (fun j => j) (mk_exn KeyboardInterrupt (str "")) 2%nat).
  - lia.
  - intros [|j] Hj; try lia. eexists; split; vm_compute; reflexivity.
  - intros [|j] Hj; try lia. eexists _, _; repeat split; vm_compute; reflexivity.
  - vm_compute. reflexivity.
  - vm_compute. reflexivity.
Defined.

(** Whatever the wrapped function and the delays: the executor never calls
    the function more than [max_attempts] times, never waits more often than
    it called, waits only delays that [time.sleep] accepted, the [j]-th wait
    lasting the initial delay multiplied [j] times by the factor, and a
    result is returned after exactly one call more than waits. *)
Theorem retry_with_backoff_bounds {A State : Type}
    (sleep : pynum -> outcome unit) (func : State -> outcome A * State)
    (max_attempts : Z) (backoff_factor : pynum) (exceptions : list exn_class)
    (initial_delay : pynum) (s : State) :
  let '(r, _, tr) :=
    retry_with_backoff sleep func max_attempts backoff_factor exceptions
      initial_delay s in
  (attempts_of tr <= Z.to_nat max_attempts)%nat /\
  (List.length (waits_of tr) <= attempts_of tr)%nat /\
  (returns r = true -> attempts_of tr = S (List.length (waits_of tr))) /\
  (forall j d, nth_error (waits_of tr) j = Some d ->
     delay_after j initial_delay backoff_factor = Return d /\
     sleep d = Return tt).
Proof.
  unfold retry_with_backoff.
  apply (retry_loop_bounds sleep func max_attempts backoff_factor exceptions
           (Z.to_nat max_attempts) 1 initial_delay None s).
  lia.
Qed.

(** For every [max_attempts >= 1]: a function that fails at every call with
    a retryable exception is called exactly [max_attempts] times, with
    [max_attempts - 1] waits between the calls when [time.sleep] accepts
    them, and the failure of its last call is raised to the caller. *)
Theorem retry_with_backoff_exhausts {A State : Type}
    (sleep : pynum -> outcome unit) (func : State -> outcome A * State)
    (max_attempts : Z) (backoff_factor : pynum) (exceptions : list exn_class)
    (initial_delay : pynum) (s : State) :
  1 <= max_attempts ->
  (forall s0, exists e s0', func s0 = (Raise e, s0') /\
                            catches exceptions e = true) ->
  (forall k, Z.of_nat k < max_attempts - 1 ->
     exists d d', delay_after k initial_delay backoff_factor = Return d /\
                  sleep d = Return tt /\
                  py_mul d backoff_factor = Return d') ->
  exists e s_last s' tr,
    retry_with_backoff (A := A) sleep func max_attempts backoff_factor
      exceptions initial_delay s = (Raise e, s', tr) /\
    func s_last = (Raise e, s') /\
    Z.of_nat (attempts_of tr) = max_attempts /\
    Z.of_nat (List.length (waits_of tr)) = max_attempts - 1.
Proof.
  intros Hmax Hfail Hwaits. unfold retry_with_backoff.
  destruct (FetchFacts.retry_loop_exhausts sleep func max_attempts
              backoff_factor exceptions Hfail (Z.to_nat (max_attempts - 1))
              1 initial_delay None s)
    as (e & s_last & s' & tr & Hrun & Hlast & Hatt & Hwait).
  - lia.
  - intros k Hk. apply Hwaits. lia.
  - exists e, s_last, s', tr. split; [exact Hrun|]. split; [exact Hlast|].
    rewrite Hatt, Hwait. lia.
Qed.

(** Five attempts against a function that always fails: five calls and the
    waits 1, 2.0, 4.0 and 8.0. *)
Lemma retry_with_backoff_exhausts_at_5 :
  exists e s_last s' tr,
    retry_with_backoff time_sleep Samples.always_failing 5 Samples.two
      [Exception] (PInt 1) O = (Raise e, s', tr) /\
    Samples.always_failing s_last = (Raise e, s') /\
    Z.of_nat (attempts_of tr) = 5 /\
    Z.of_nat (List.length (waits_of tr)) = 5 - 1.
Proof.
  apply (retry_with_backoff_exhausts time_sleep Samples.always_failing 5
           Samples.two [Exception] (PInt 1) O).
  - lia.
  - intros s0. eexists _, _. split; [reflexivity | vm_compute; reflexivity].
  - intros [|[|[|[|k]]]] Hk; try lia; eexists _, _;
      repeat split; vm_compute; reflexivity.
Defined.

End ExecutorExtras.

(** ** The batch writer and the store stage on any input *)

Module StoreExtras.

Import Utils Spec Terms EnvFacts BatchWriterFacts.

Section Loop.
Variable E : collaborators.
Variable collection_name : pystr.
Variable items : list Doc.t.
Variable batch_size : Z.

Local Abbreviation chunk_at := (fun i : Z => slice items i (i + batch_size)).
Local Abbreviation applied :=
  (fun c : list Doc.t => (batch_of E collection_name c, true)).

(** A loop that ends without an exception has had every chunk applied and
    counted. *)
Lemma write_batches_returned starts : forall total w total' w',
  write_batches E collection_name items batch_size starts total w
    = ((total', None), w') ->
  total' = total + Z.of_nat (List.length (List.concat (List.map chunk_at starts)))
  /\ w' = logged w (List.map applied (List.map chunk_at starts)).
Proof.
  induction starts as [|i starts IH]; intros total w total' w' Hrun.
  - cbn in Hrun. injection Hrun as <- <-. cbn. rewrite logged_nil.
    split; [lia | reflexivity].
  - cbn [write_batches] in Hrun.
    destruct (commit_failure E (List.length (commits w))) as [e|] eqn:Hcommit.
    + rewrite (commit_refused _ _ _ e Hcommit) in Hrun. discriminate.
    + rewrite (commit_applied _ _ _ Hcommit) in Hrun.
      destruct (IH _ _ _ _ Hrun) as [-> ->].
      rewrite logged_logged. cbn [List.map List.concat app].
      rewrite length_app. split; [lia | reflexivity].
Qed.
End Loop.




(** A batch size of zero makes the batch writer raise the [ValueError] of
    [range] and a negative one makes it return 0; in both cases nothing is
    handed to the store, whatever the documents. *)
Theorem batch_write_to_firestore_no_batch (E : collaborators)
    (collection_name : pystr) (items : list Doc.t) (batch_size : Z) (w : world) :
  batch_size <= 0 ->
  batch_write_to_firestore E collection_name items batch_size w
  = (if batch_size =? 0
     then Raise (mk_exn ValueError (str "range() arg 3 must not be zero"))
     else Return 0,
     w).
Proof.
  intros Hsize. unfold batch_write_to_firestore, batch_write_locals, range_step.
  destruct (Z.eqb_spec batch_size 0) as [_|Hnz]; [reflexivity|].
  destruct (Z.ltb_spec 0 batch_size) as [|_]; [lia|].
  replace (Z.to_nat ((0 - Z.of_nat (List.length items) - batch_size - 1)
                     / - batch_size)) with O; [reflexivity|].
  assert ((0 - Z.of_nat (List.length items) - batch_size - 1) / - batch_size < 1)
    by (apply Z.div_lt_upper_bound; lia).
  lia.
Qed.

(** Twelve documents and a batch size of -5: the writer returns 0 and the
    store log is as it was. *)
Lemma batch_write_to_firestore_no_batch_at_minus_5 :
  batch_write_to_firestore (Samples.serving VNone) (str "api_data")
    Samples.twelve_documents (-5) Env.initial
  = (Return 0, Env.initial).
Proof.
  apply (batch_write_to_firestore_no_batch (Samples.serving VNone)
           (str "api_data") Samples.twelve_documents (-5) Env.initial).
  lia.
Defined.

Lemma try_except_reraise {A} (c : M A) classes w :
  try_except c classes (fun e => lift (Raise e)) w = c w.
Proof.
  unfold try_except, lift. destruct (c w) as [[a|e] w']; [reflexivity|].
  destruct (catches classes e); reflexivity.
Qed.

(** The store stage is the batch writer with the configured collection and
    batches of [BATCH_SIZE]: its early return on an empty list and its
    handler, which raises again what it caught, change neither the result
    nor what the store sees. *)
Theorem store_data_in_firestore_is_batch_write (cfg : Config.t)
    (E : collaborators) (items : list Doc.t) (w : world) :
  Main.store_data_in_firestore cfg E items w
  = batch_write_to_firestore E (Config.FIRESTORE_COLLECTION cfg) items
      Config.BATCH_SIZE w.
Proof.
  unfold Main.store_data_in_firestore. destruct items as [|item items].
  - reflexivity.
  - apply try_except_reraise.
Qed.

End StoreExtras.

(** ** The store client and the health check *)

Module HealthExtras.

Import Utils Spec Terms Endpoints.




End HealthExtras.

(** ** The fetch stage on any answer of the API *)

Module FetchExtras.

Import Utils Spec Terms ExecutorFacts ExecutorExtras.

Section Counting.
Context {A State B : Type}.
Variable sleep : pynum -> outcome unit.
Variable func : State -> outcome A * State.
Variable max_attempts : Z.
Variable backoff_factor : pynum.
Variable exceptions : list exn_class.

(** A counter that every call of the function advances by one. *)
Variable calls : State -> nat.
Hypothesis calls_step : forall s, calls (snd (func s)) = S (calls s).

(** A part of the state that no call of the function changes. *)
Variable rest_of : State -> B.
Hypothesis rest_kept : forall s, rest_of (snd (func s)) = rest_of s.

(** The loop calls the function once for each attempt it records, and
    touches the state by these calls alone. *)
Lemma retry_loop_calls (attempts : list Z) : forall delay last_exception s,
  let '(_, s', tr) :=
    retry_loop sleep func max_attempts backoff_factor exceptions
      attempts delay last_exception s in
  calls s' = (calls s + attempts_of tr)%nat /\ rest_of s' = rest_of s.
Proof.
  induction attempts as [|attempt rest IH]; intros delay last_exception s;
    cbn [retry_loop].
  - cbn. split; [lia | reflexivity].
  - pose proof (calls_step s) as Hcalls. pose proof (rest_kept s) as Hrest.
    destruct (func s) as [[result|e] s1]; cbn [snd] in Hcalls, Hrest.
    { cbn. split; [lia | exact Hrest]. }
    destruct (catches exceptions e); [|cbn; split; [lia | exact Hrest]].
    destruct (attempt <? max_attempts).
    + destruct (sleep delay) as [[]|e']; [|cbn; split; [lia | exact Hrest]].
      destruct (py_mul delay backoff_factor) as [delay'|e'];
        [|cbn; split; [lia | exact Hrest]].
      specialize (IH delay' (Some e) s1).
      destruct (retry_loop sleep func max_attempts backoff_factor exceptions
                  rest delay' (Some e) s1) as [[r s2] tr].
      destruct IH as [IHcalls IHrest]. unfold attempts_of in *.
      cbn [after app filter is_attempt List.length].
      split; [lia | congruence].
    + specialize (IH delay (Some e) s1).
      destruct (retry_loop sleep func max_attempts backoff_factor exceptions
                  rest delay (Some e) s1) as [[r s2] tr].
      destruct IH as [IHcalls IHrest]. unfold attempts_of in *.
      cbn [after app filter is_attempt List.length].
      split; [lia | congruence].
Qed.
End Counting.

Lemma make_request_sends (E : collaborators) (w : world) :
  requests_sent (snd (Main.make_request E w)) = S (requests_sent w) /\
  (clock_reads (snd (Main.make_request E w)),
   commits (snd (Main.make_request E w)))
  = (clock_reads w, commits w).
Proof.
  unfold Main.make_request, requests_get.
  destruct (http E (requests_sent w)); split; reflexivity.
Qed.

(** The fetch stage sends one request for each attempt of its executor and
    so never more than [API_RETRY_MAX_ATTEMPTS] requests, whatever the API
    answers; it neither reads the clock nor writes to the store. *)
Theorem fetch_data_from_api_requests (cfg : Config.t) (E : collaborators)
    (w : world) :
  let '(_, w', tr) := Main.fetch_data_from_api_events cfg E w in
  requests_sent w' = (requests_sent w + attempts_of tr)%nat /\
  (attempts_of tr <= Z.to_nat (Config.API_RETRY_MAX_ATTEMPTS cfg))%nat /\
  clock_reads w' = clock_reads w /\
  commits w' = commits w.
Proof.
  unfold Main.fetch_data_from_api_events, retry_with_backoff.
  pose proof (retry_loop_calls (sleep E) (Main.make_request E)
                (Config.API_RETRY_MAX_ATTEMPTS cfg) Config.API_RETRY_BACKOFF
                Main.fetch_exceptions requests_sent
                (fun w0 => proj1 (make_request_sends E w0))
                (fun w0 => (clock_reads w0, commits w0))
                (fun w0 => proj2 (make_request_sends E w0))
                (range 1 (Config.API_RETRY_MAX_ATTEMPTS cfg + 1))
                (PInt (Config.API_RETRY_DELAY cfg)) None w) as Hcalls.
  pose proof (retry_loop_bounds (sleep E) (Main.make_request E)
                (Config.API_RETRY_MAX_ATTEMPTS cfg) Config.API_RETRY_BACKOFF
                Main.fetch_exceptions
                (Z.to_nat (Config.API_RETRY_MAX_ATTEMPTS cfg)) 1
                (PInt (Config.API_RETRY_DELAY cfg)) None w ltac:(lia))
    as Hbounds.
  destruct (retry_loop (sleep E) (Main.make_request E)
              (Config.API_RETRY_MAX_ATTEMPTS cfg) Config.API_RETRY_BACKOFF
              Main.fetch_exceptions
              (range 1 (Config.API_RETRY_MAX_ATTEMPTS cfg + 1))
              (PInt (Config.API_RETRY_DELAY cfg)) None w) as [[r w'] tr].
  destruct Hcalls as [Hsent Hrest]. destruct Hbounds as (Hatt & _).
  injection Hrest as Hclock Hcommits.
  repeat split; assumption.
Qed.

(** An answer that [handle_rate_limit] lets pass, with a body that is JSON,
    ends the fetch after one request and no wait, when one attempt at least
    is allowed: the body is returned when it has a length; a body without
    one (null, a number, a boolean) makes the fetch raise the [TypeError] of
    [len], outside the retried function, so without another request. *)
Theorem fetch_data_from_api_first_answer (cfg : Config.t) (E : collaborators)
    (w : world) (status_code : Z) (retry_after : option pystr) (data : value) :
  1 <= Config.API_RETRY_MAX_ATTEMPTS cfg ->
  http E (requests_sent w) = Response status_code retry_after (Some data) ->
  handle_rate_limit status_code retry_after = Return tt ->
  exists w',
    Main.fetch_data_from_api_events cfg E w
    = (match py_len data with
       | Return _ => Return data
       | Raise e => Raise e
       end, w', [Attempt 1]) /\
    requests_sent w' = S (requests_sent w).
Proof.
  intros Hmax Hreply Hpass.
  unfold Main.fetch_data_from_api_events, retry_with_backoff.
  rewrite range_cons by lia. cbn [retry_loop].
  unfold Main.make_request at 1, requests_get. rewrite Hreply, Hpass.
  cbn [obind]. exists (snd (requests_get E w)). split; [|reflexivity].
  destruct (py_len data); reflexivity.
Qed.

(** The API answers 200 with the body [null]: one request, then the
    [TypeError] of [len(None)]. *)
Lemma fetch_data_from_api_first_answer_null :
  exists w',
    Main.fetch_data_from_api_events Samples.demo (Samples.serving VNone)
      Env.initial
    = (Raise (mk_exn TypeError (str "object of type 'NoneType' has no len()")),
       w', [Attempt 1]) /\
    requests_sent w' = 1%nat.
Proof.
  apply (fetch_data_from_api_first_answer Samples.demo (Samples.serving VNone)
           Env.initial 200 None VNone); [cbn; lia | reflexivity | reflexivity].
Defined.

(** [handle_rate_limit] lets a response pass exactly when its status code is
    below 400 or from 600 on, so also the codes 1xx and 3xx.  For 429 it
    raises an [Exception] whose text carries the [Retry-After] header, or 60
    when the header is missing; for the other codes from 400 to 599 it raises
    the [HTTPError] of [raise_for_status]. *)
Theorem handle_rate_limit_statuses (status_code : Z) (retry_after : option pystr) :
  (handle_rate_limit status_code retry_after = Return tt
     <-> status_code < 400 \/ 600 <= status_code) /\
  (status_code = 429 ->
     handle_rate_limit status_code retry_after
     = Raise (mk_exn Exception
                (str "Rate limited. Retry after "
                 ++ match retry_after with Some v => v | None => str "60" end
                 ++ str " seconds"))) /\
  (400 <= status_code < 600 -> status_code <> 429 ->
     exists e, handle_rate_limit status_code retry_after = Raise e /\
               exn_class_of e = HTTPError).
Proof.
  unfold handle_rate_limit, raise_for_status.
  destruct (Z.eqb_spec status_code 429) as [->|Hnot].
  - split; [split; [discriminate | lia]|].
    split; [reflexivity | intros _ H; contradiction].
  - destruct (Z.leb_spec 400 status_code), (Z.ltb_spec status_code 500),
      (Z.leb_spec 500 status_code), (Z.ltb_spec status_code 600);
      cbn [andb]; try lia;
      (split; [split; [try discriminate; intros _; lia
                      | try reflexivity; intros; lia]|];
       split; [intros; lia|];
       intros; try lia; eexists; split; reflexivity).
Qed.

End FetchExtras.

(** ** The error strings of the processing stage *)

Module ProcessExtras.

Import Utils Spec Terms EnvFacts ProcessFacts.

Section Loop.
Variable E : collaborators.

(** A record that is not accepted adds one string, which names the number
    of the record, and leaves the run as it was. *)
Lemma process_item_rejected idx item processed_items errors w :
  accepted item = false ->
  exists msg,
    names_item idx msg /\
    Main.process_item E idx item (processed_items, errors) w
    = (Return (processed_items, errors ++ [msg]), w).
Proof.
  unfold accepted, Main.process_item, try_except, bind, lift, ret.
  destruct (validate_post_data item) as [[|]|e] eqn:Hvalid;
    [discriminate| |]; intros _.
  - eexists. split; [|reflexivity].
    exists (str "Validation failed"). reflexivity.
  - rewrite (validate_raises_exception item e Hvalid).
    eexists. split; [|reflexivity].
    exists (str "Processing error - " ++ exn_str e). reflexivity.
Qed.

Lemma process_items_positions items : forall idx processed_items errors w,
  exists docs msgs w',
    Main.process_items E items idx (processed_items, errors) w
    = (Return (processed_items ++ docs, errors ++ msgs), w') /\
    Forall2 names_item (positions rejected idx items) msgs.
Proof.
  induction items as [|item items IH]; intros idx processed_items errors w.
  - exists [], [], w. cbn. rewrite !app_nil_r. split; [reflexivity | constructor].
  - cbn [Main.process_items positions]. unfold rejected at 1.
    destruct (accepted item) eqn:Hacc; cbn [negb app].
    + destruct (process_item_cases E idx item processed_items errors w)
        as [(_ & doc & _ & Hstep) | (Hrej & _)]; [|congruence].
      rewrite (bind_return _ _ _ _ _ Hstep).
      destruct (IH (idx + 1) (processed_items ++ [doc]) errors (tick w))
        as (docs & msgs & w' & Hrest & Hmsgs).
      exists (doc :: docs), msgs, w'. rewrite Hrest, <- app_assoc.
      split; [reflexivity | exact Hmsgs].
    + destruct (process_item_rejected idx item processed_items errors w Hacc)
        as (msg & Hname & Hstep).
      rewrite (bind_return _ _ _ _ _ Hstep).
      destruct (IH (idx + 1) processed_items (errors ++ [msg]) w)
        as (docs & msgs & w' & Hrest & Hmsgs).
      exists docs, (msg :: msgs), w'. rewrite Hrest, <- app_assoc.
      split; [reflexivity|]. constructor; assumption.
Qed.
End Loop.

(** The list [errors] of [process_data] holds, in their order, one string
    for each record among the first [MAX_ITEMS_TO_PROCESS] that is not
    accepted, and the string of a record starts with [Item <n>: ], where [n]
    is the position of the record in the fetched list, counted from 1 and
    with the accepted records counted too. *)
Theorem process_data_error_positions (E : collaborators)
    (raw_data : list value) (w : world) :
  exists docs errors w',
    Main.process_data_locals E (VList raw_data) w
    = (Return (docs, errors), w') /\
    Forall2 names_item
      (positions rejected 1
         (firstn (Z.to_nat Config.MAX_ITEMS_TO_PROCESS) raw_data))
      errors.
Proof.
  destruct (process_items_positions E
              (firstn (Z.to_nat Config.MAX_ITEMS_TO_PROCESS) raw_data)
              1 [] [] w) as (docs & msgs & w' & Hrun & Hmsgs).
  exists docs, msgs, w'. split; [|exact Hmsgs].
  unfold Main.process_data_locals.
  rewrite (bind_return _ _ w
             (firstn (Z.to_nat Config.MAX_ITEMS_TO_PROCESS) raw_data) w)
    by reflexivity.
  exact Hrun.
Qed.

End ProcessExtras.

(** ** The answers of the pipeline *)

Module MainExtras.

Import Utils Spec Terms EnvFacts.

Lemma validate_inv (cfg : Config.t) (v : bool) :
  Config.validate cfg = Return v -> Config.PROJECT_ID cfg <> [].
Proof.
  unfold Config.validate. destruct (Config.PROJECT_ID cfg); [discriminate|].
  intros _. discriminate.
Qed.

Lemma initialize_firestore_inv (E : collaborators) (w w' : world) (u : unit) :
  Main.initialize_firestore E w = (Return u, w') ->
  reachable E = true /\ w' = w.
Proof.
  unfold Main.initialize_firestore, check_firestore_health, reachable,
    try_except, bind, lift, ret.
  destruct (client_failure E) as [e0|].
  { destruct (catches [Exception] e0); discriminate. }
  destruct (health_set_failure E) as [e1|].
  { destruct (catches [Exception] e1) eqn:H1; cbn -[catches str];
      [discriminate|]. rewrite H1. discriminate. }
  destruct (health_get E) as [[|]|e2]; cbn -[catches str].
  - intros H. injection H as _ <-. split; reflexivity.
  - discriminate.
  - destruct (catches [Exception] e2) eqn:H2; cbn -[catches str];
      [discriminate|]. rewrite H2. discriminate.
Qed.


Lemma py_take_length (v : value) (n total : Z) (items : list value) :
  py_take v n = Return items -> py_len v = Return total -> 0 <= n ->
  Z.of_nat (List.length items) <= n /\ Z.of_nat (List.length items) <= total.
Proof.
  destruct v; cbn [py_take py_len]; try discriminate;
    intros Htake Hlen Hn; injection Htake as <-; injection Hlen as <-;
    unfold PyStr.len; rewrite ?length_map, length_firstn; lia.
Qed.

(** What [process_data] returns is no longer than the fetched data and
    holds [MAX_ITEMS_TO_PROCESS] documents at most. *)
Lemma process_data_length (E : collaborators) (raw_data : value)
    (docs : list Doc.t) (total : Z) (w w' : world) :
  Main.process_data E raw_data w = (Return docs, w') ->
  py_len raw_data = Return total ->
  Z.of_nat (List.length docs) <= Config.MAX_ITEMS_TO_PROCESS /\
  Z.of_nat (List.length docs) <= total.
Proof.
  intros Hrun Hlen. unfold Main.process_data in Hrun.
  apply bind_inv in Hrun. destruct Hrun as (locals & w1 & Hlocals & Hret).
  unfold ret in Hret. injection Hret as <- _.
  unfold Main.process_data_locals in Hlocals.
  apply bind_inv in Hlocals. destruct Hlocals as (items & w2 & Htake & Hloop).
  unfold lift in Htake. injection Htake as Htake <-.
  destruct (ProcessFacts.process_items_spec E items 1 [] [] w)
    as (docs' & msgs & Hspec & Hdocs & _).
  rewrite Hspec in Hloop. injection Hloop as <- _. cbn [app fst].
  rewrite <- (Forall2_length Hdocs).
  pose proof (filter_length_le accepted items) as Hfilter.
  assert (Hitems : Z.of_nat (List.length items) <= Config.MAX_ITEMS_TO_PROCESS
                   /\ Z.of_nat (List.length items) <= total).
  { apply (py_take_length raw_data); [exact Htake | exact Hlen|].
    unfold Config.MAX_ITEMS_TO_PROCESS. lia. }
  lia.
Qed.

(** The store stage returns the number of the documents it was given. *)
Lemma store_data_in_firestore_count (cfg : Config.t) (E : collaborators)
    (items : list Doc.t) (count : Z) (w w' : world) :
  Main.store_data_in_firestore cfg E items w = (Return count, w') ->
  count = Z.of_nat (List.length items).
Proof.
  unfold Main.store_data_in_firestore. destruct items as [|item items].
  { unfold ret. intros H. injection H as <- _. reflexivity. }
  rewrite StoreExtras.try_except_reraise.
  set (docs := item :: items). intros Hrun.
  assert (Hsize : 1 <= Config.BATCH_SIZE) by (unfold Config.BATCH_SIZE; lia).
  destruct (BatchWriterFacts.slices_are_chunks docs Config.BATCH_SIZE Hsize
              (List.length docs) 0) as (starts & Hstarts & Hmap); [lia|lia|].
  change (Z.to_nat 0) with O in Hmap. cbn [skipn] in Hmap.
  destruct (BatchWriterFacts.chunks_upto_concat (Z.to_nat Config.BATCH_SIZE)
              ltac:(unfold Config.BATCH_SIZE; lia)
              (List.length docs) docs (le_n _)) as [Hcat _].
  unfold batch_write_to_firestore, batch_write_locals in Hrun.
  rewrite Hstarts in Hrun.
  destruct (write_batches E (Config.FIRESTORE_COLLECTION cfg) docs
              Config.BATCH_SIZE starts 0 w) as [[total [e|]] w1] eqn:Hloop;
    [discriminate|].
  injection Hrun as <- _.
  destruct (StoreExtras.write_batches_returned _ _ _ _ _ _ _ _ _ Hloop)
    as [-> _].
  rewrite Hmap, Hcat. lia.
Qed.

(** [main] never lets an [Exception] escape: it answers with a summary and
    the code 200, or with the dictionary of a failed run, whose status is
    [failed], and the code 500.  All that can leave it is an exception
    outside [Exception], such as a [KeyboardInterrupt]. *)
Theorem main_answer (cfg : Config.t) (E : collaborators) (w : world) :
  let '(r, _) := Main.main cfg E w in
  match r with
  | Return (Main.Completed summary, code) =>
      code = 200 /\ Summary.start_time summary = clock E (clock_reads w)
  | Return (Main.Failed summary, code) =>
      code = 500 /\ Main.Failure.status summary = str "failed"
  | Raise e => catches [Exception] e = false
  end.
Proof.
  unfold Main.main.
  rewrite (bind_return _ _ w (clock E (clock_reads w)) (tick w)) by reflexivity.
  unfold try_except.
  match goal with
  | |- context [match ?body (tick w) with _ => _ end] =>
      destruct (body (tick w)) as [[[p code]|e] w1] eqn:Hbody
  end.
  - do 6 (apply bind_inv in Hbody; destruct Hbody as (? & ? & _ & Hbody)).
    apply bind_inv in Hbody. destruct Hbody as (s & w2 & Hsummary & Hret).
    unfold ret in Hret. injection Hret as <- <- _.
    split; [reflexivity|].
    unfold get_execution_summary, bind, utcnow, lift, ret in Hsummary.
    destruct (success_rate_of _ _); [|discriminate].
    injection Hsummary as <- _. reflexivity.
  - destruct (catches [Exception] e) eqn:Hcatch.
    + unfold bind, utcnow, ret. cbn. split; reflexivity.
    + exact Hcatch.
Qed.

(** Without a project identifier [main] fails before it touches the store
    or the API: it answers 500 with the text of the configuration error,
    having read the clock three times and done nothing else. *)
Theorem main_missing_project (cfg : Config.t) (E : collaborators) (w : world) :
  Config.PROJECT_ID cfg = [] ->
  Main.main cfg E w
  = (Return
       (Main.Failed
          {| Main.Failure.status := str "failed";
             Main.Failure.error :=
               str "Missing required configuration: PROJECT_ID";
             Main.Failure.execution_time :=
               clock E (S (clock_reads w)) - clock E (clock_reads w);
             Main.Failure.timestamp := clock E (S (S (clock_reads w))) |},
        500),
     ticks 3 w).
Proof.
  intros Hproject.
  unfold Main.main, Config.validate, try_except, bind, lift, utcnow, ret.
  rewrite Hproject. reflexivity.
Qed.

(** The configuration of an environment that sets no variable. *)
Lemma main_missing_project_defaults :
  Main.main Config.defaults Samples.feed Env.initial
  = (Return
       (Main.Failed
          {| Main.Failure.status := str "failed";
             Main.Failure.error :=
               str "Missing required configuration: PROJECT_ID";
             Main.Failure.execution_time := 1;
             Main.Failure.timestamp := 2 |},
        500),
     ticks 3 Env.initial).
Proof.
  apply (main_missing_project Config.defaults Samples.feed Env.initial).
  reflexivity.
Defined.



(** A run that ends with a summary: the configuration names a project, the
    store is reachable, and the code is 200.  Every processed document was
    stored; at most [MAX_ITEMS_TO_PROCESS] documents, and no more than were
    fetched, were processed; the status is [success] when a document was
    stored and [failed] when none was. *)
Theorem main_completed_run (cfg : Config.t) (E : collaborators) (w w' : world)
    (summary : Summary.t) (code : Z) :
  Main.main cfg E w = (Return (Main.Completed summary, code), w') ->
  code = 200 /\
  Config.PROJECT_ID cfg <> [] /\
  reachable E = true /\
  Summary.items_stored summary = Summary.items_processed summary /\
  0 <= Summary.items_processed summary <= Config.MAX_ITEMS_TO_PROCESS /\
  Summary.items_processed summary <= Summary.items_fetched summary /\
  (Summary.status summary = str "success"
     <-> 0 < Summary.items_stored summary) /\
  (Summary.status summary = str "failed"
     <-> Summary.items_stored summary = 0).
Proof.
  unfold Main.main. intros Hmain.
  apply bind_inv in Hmain. destruct Hmain as (start_time & w0 & _ & Hmain).
  unfold try_except in Hmain.
  match type of Hmain with
  | context [match ?body w0 with _ => _ end] =>
      destruct (body w0) as [[result|e] w1] eqn:Hbody
  end.
  2:{ destruct (catches [Exception] e); [|discriminate].
      unfold bind, utcnow, ret in Hmain. discriminate. }
  injection Hmain as -> ->.
  apply bind_inv in Hbody. destruct Hbody as (v & wa & Hvalidate & Hbody).
  apply bind_inv in Hbody. destruct Hbody as (u & wb & Hinit & Hbody).
  apply bind_inv in Hbody. destruct Hbody as (raw_data & wc & _ & Hbody).
  apply bind_inv in Hbody. destruct Hbody as (docs & wd & Hprocess & Hbody).
  apply bind_inv in Hbody. destruct Hbody as (stored & we & Hstore & Hbody).
  apply bind_inv in Hbody. destruct Hbody as (total & wf & Hlen & Hbody).
  apply bind_inv in Hbody. destruct Hbody as (s & wg & Hsummary & Hret).
  unfold ret in Hret. injection Hret as <- <- _.
  unfold lift in Hvalidate, Hlen.
  injection Hvalidate as Hvalidate _. injection Hlen as Hlen _.
  apply validate_inv in Hvalidate.
  apply initialize_firestore_inv in Hinit. destruct Hinit as [Hreach _].
  apply store_data_in_firestore_count in Hstore.
  destruct (process_data_length E raw_data docs total wc wd Hprocess Hlen)
    as [Hmax Htotal].
  apply ProcessFacts.get_execution_summary_fields in Hsummary.
  destruct Hsummary as (Hf & Hp & Hs & _ & _ & Hstatus).
  destruct (SummaryFacts.status_of_cases stored []) as (Hsuccess & _ & Hfailed).
  rewrite Hf, Hp, Hs, Hstatus. subst stored.
  split; [reflexivity|]. split; [exact Hvalidate|]. split; [exact Hreach|].
  split; [reflexivity|]. split; [lia|]. split; [exact Htotal|].
  split.
  - rewrite Hsuccess. split; [intros [H _]; exact H | intros H; split; [exact H | reflexivity]].
  - rewrite Hfailed. lia.
Qed.

(** The run on the twenty-five records, of which seven of the first ten are
    accepted. *)
Lemma main_completed_run_on_feed :
  exists summary w',
    Main.main Samples.demo Samples.feed Env.initial
    = (Return (Main.Completed summary, 200), w') /\
    Summary.items_stored summary = Summary.items_processed summary /\
    0 <= Summary.items_processed summary <= 10 /\
    Summary.items_processed summary <= Summary.items_fetched summary /\
    Summary.status summary = str "success".
Proof.
  assert (Hrun : exists summary w',
             Main.main Samples.demo Samples.feed Env.initial
             = (Return (Main.Completed summary, 200), w') /\
             (0 <? Summary.items_stored summary) = true)
    by (eexists _, _; split; [vm_compute; reflexivity | reflexivity]).
  destruct Hrun as (summary & w' & Hrun & Hpos).
  destruct (main_completed_run Samples.demo Samples.feed Env.initial w'
              summary 200 Hrun)
    as (_ & _ & _ & Hstored & Hmax & Hfetched & Hsuccess & _).
  exists summary, w'. split; [exact Hrun|]. split; [exact Hstored|].
  split; [exact Hmax|]. split; [exact Hfetched|].
  apply Hsuccess. apply Z.ltb_lt. exact Hpos.
Defined.

(** When the store stage raises an [Exception], [main] answers 500 with the
    text of that exception and reads the clock twice more; it does not undo
    the batches the store has applied before the failure, which stay in the
    store. *)
Theorem main_store_failure (cfg : Config.t) (E : collaborators)
    (w w1 w2 w3 : world) (raw_data : value) (docs : list Doc.t) (e : exn) :
  Config.PROJECT_ID cfg <> [] ->
  reachable E = true ->
  Main.fetch_data_from_api cfg E (tick w) = (Return raw_data, w1) ->
  Main.process_data E raw_data w1 = (Return docs, w2) ->
  Main.store_data_in_firestore cfg E docs w2 = (Raise e, w3) ->
  catches [Exception] e = true ->
  Main.main cfg E w
  = (Return
       (Main.Failed
          {| Main.Failure.status := str "failed";
             Main.Failure.error := exn_str e;
             Main.Failure.execution_time :=
               clock E (clock_reads w3) - clock E (clock_reads w);
             Main.Failure.timestamp := clock E (S (clock_reads w3)) |},
        500),
     tick (tick w3)).
Proof.
  intros Hproject Hreach Hfetch Hprocess Hstore Hcatch.
  assert (Hvalidate : Config.validate cfg = Return true).
  { unfold Config.validate. destruct (Config.PROJECT_ID cfg); congruence. }
  assert (Hinit : Main.initialize_firestore E (tick w) = (Return tt, tick w)).
  { unfold reachable in Hreach.
    destruct (client_failure E) eqn:Hc; [discriminate|].
    destruct (health_set_failure E) eqn:Hs; [discriminate|].
    destruct (health_get E) as [[|]|] eqn:Hg; try discriminate.
    apply SummaryFacts.initialize_firestore_healthy; assumption. }
  unfold Main.main.
  rewrite (bind_return _ _ w (clock E (clock_reads w)) (tick w)) by reflexivity.
  unfold try_except.
  rewrite (bind_return _ _ (tick w) true (tick w))
    by (unfold lift; rewrite Hvalidate; reflexivity).
  rewrite (bind_return _ _ _ _ _ Hinit).
  rewrite (bind_return _ _ _ _ _ Hfetch).
  rewrite (bind_return _ _ _ _ _ Hprocess).
  rewrite (bind_raise _ _ _ _ _ Hstore).
  rewrite Hcatch. reflexivity.
Qed.

(** Seven documents in batches of five, the second commit refused: the
    answer is 500 with the text of the store's error, and the first batch of
    five documents stays applied. *)
Lemma main_store_failure_at_second_batch :
  exists summary w',
    Main.main Samples.demo Cases.feed_store_down_at_1 Env.initial
    = (Return (Main.Failed summary, 500), w') /\
    Main.Failure.error summary = str "503 unavailable" /\
    List.map (fun entry => (List.length (fst entry), snd entry)) (commits w')
    = [(5%nat, true); (2%nat, false)].
Proof.
  assert (Hfetch : exists raw_data w1,
            Main.fetch_data_from_api Samples.demo Cases.feed_store_down_at_1
              (tick Env.initial) = (Return raw_data, w1))
    by (eexists _, _; vm_compute; reflexivity).
  destruct Hfetch as (raw_data & w1 & Hfetch).
  assert (Hprocess : exists docs w2,
            Main.process_data Cases.feed_store_down_at_1 raw_data w1
            = (Return docs, w2)).
  { vm_compute in Hfetch. injection Hfetch as <- <-.
    eexists _, _. vm_compute. reflexivity. }
  destruct Hprocess as (docs & w2 & Hprocess).
  assert (Hstore : exists w3,
            Main.store_data_in_firestore Samples.demo
              Cases.feed_store_down_at_1 docs w2
            = (Raise Samples.unavailable, w3) /\
            List.map (fun entry => (List.length (fst entry), snd entry))
              (commits w3) = [(5%nat, true); (2%nat, false)]).
  { vm_compute in Hfetch. injection Hfetch as <- <-.
    vm_compute in Hprocess. injection Hprocess as <- <-.
    eexists. split; vm_compute; reflexivity. }
  destruct Hstore as (w3 & Hstore & Hlog).
  pose proof (main_store_failure Samples.demo Cases.feed_store_down_at_1
                Env.initial w1 w2 w3 raw_data docs Samples.unavailable
                ltac:(discriminate) eq_refl Hfetch Hprocess Hstore eq_refl)
    as Hmain.
  eexists _, _. split; [exact Hmain|]. split; [reflexivity | exact Hlog].
Defined.

End MainExtras.
